(** * TogglPy: a shallow embedding of [toggl/TogglPy.py]

    The client is modelled the way it is written: JSON values are the
    Python values the [json] module produces, every method is a
    computation in a state-and-exception monad, and everything the
    program only consumes (HTTP transport, clock, JSON codec) is a field
    of a record of externals.

    Conventions.
    - A Python [str] is represented by the bytes of its UTF-8 encoding, a
      Rocq [string]; [bytes] objects share the carrier.  [str.encode()]
      is therefore the identity.
    - Python [int] is [Z]; a finite [float] is carried as a rational.
    - A [dict] is an association list in insertion order with unique
      keys, because [json] serialises in that order. *)

From Stdlib Require Import ZArith NArith QArith Qround Ascii String List Bool Lia.
From stdpp Require Import base option list strings gmap pretty.

Set Warnings "-register-all".

Local Open Scope string_scope.
Local Open Scope Z_scope.
Local Open Scope list_scope.

(** ** Python values *)

Inductive pyval : Type :=
| PNone
| PBool (b : bool)
| PInt (z : Z)
| PFloat (q : Q)
| PStr (s : string)
| PList (l : list pyval)
| PDict (d : list (string * pyval)).

(** Abbreviation for the carrier of a Python [dict] with [str] keys. *)
Abbreviation pydict := (list (string * pyval)).

(** ** Exceptions and results *)

Inductive exn : Type :=
| TypeError (msg : string)
| AttributeError (msg : string)
| KeyError (key : string)
| IndexError (msg : string)
| ValueError (msg : string)
| UnicodeDecodeError
| JSONDecodeError
| HTTPError (code : Z) (body : string)
| URLError
| SystemExit (code : Z)
| OverflowError (msg : string)
(** [raise Exception(fmt % arg)]: the message is kept as its template and
    its argument. *)
| PyException (fmt : string) (arg : option pyval)
(** A construct of the standard library this development does not model. *)
| Unmodelled (what : string).

Inductive result (A : Type) : Type :=
| Ok (a : A)
| Raise (e : exn).
Arguments Ok {A} a.
Arguments Raise {A} e.

Definition rbind {A B} (r : result A) (k : A -> result B) : result B :=
  match r with
  | Ok a => k a
  | Raise e => Raise e
  end.

(** ** Dictionaries *)

Module Dict.

Fixpoint get (k : string) (d : pydict) : option pyval :=
  match d with
  | [] => None
  | (k', v) :: d' => if String.eqb k' k then Some v else get k d'
  end.

(** [k in d] *)
Definition mem (k : string) (d : pydict) : bool :=
  match get k d with Some _ => true | None => false end.

(** [d[k] = v]: an existing key keeps its position, a new one goes last. *)
Fixpoint set (k : string) (v : pyval) (d : pydict) : pydict :=
  match d with
  | [] => [(k, v)]
  | (k', v') :: d' =>
      if String.eqb k' k then (k', v) :: d' else (k', v') :: set k v d'
  end.

Definition keys (d : pydict) : list string := map fst d.

End Dict.

(** ** Strings and bytes *)

(** Whitespace as [str.rstrip()] sees it among ASCII characters: TAB, LF,
    VT, FF, CR, FS, GS, RS, US and SPACE. *)
Definition is_py_space (c : ascii) : bool :=
  let n := N_of_ascii c in
  (((9 <=? n) && (n <=? 13)) || ((28 <=? n) && (n <=? 32)))%N.

Fixpoint drop_while {A} (p : A -> bool) (l : list A) : list A :=
  match l with
  | [] => []
  | x :: l' => if p x then drop_while p l' else l
  end.

(** [s.rstrip()], used by the program on ASCII text only. *)
Definition rstrip (s : string) : string :=
  string_of_list_ascii
    (rev (drop_while is_py_space (rev (list_ascii_of_string s)))).

Definition is_ascii (c : ascii) : bool := (N_of_ascii c <? 128)%N.

(** [b.decode('ascii')] *)
Definition decode_ascii (b : string) : result string :=
  if forallb is_ascii (list_ascii_of_string b) then Ok b
  else Raise UnicodeDecodeError.

(** [s.encode()] *)
Definition encode (s : string) : string := s.

(** *** [base64.b64encode] (RFC 4648, standard alphabet, padded) *)

Definition b64_alphabet : list ascii :=
  list_ascii_of_string
    "ABCDEFGHIJKLMNOPQRSTUVWXYZabcdefghijklmnopqrstuvwxyz0123456789+/".

Definition b64_pad : ascii := "="%char.

Definition b64_char (i : N) : ascii := nth (N.to_nat i) b64_alphabet b64_pad.

(** The 6-bit group of [n] that starts at bit [k]. *)
Definition sextet (n : N) (k : N) : N := N.land (N.shiftr n k) 63.

Fixpoint b64_groups (bs : list N) : list ascii :=
  match bs with
  | [] => []
  | a :: bs1 =>
      match bs1 with
      | [] =>
          let n := N.shiftl a 16 in
          [b64_char (sextet n 18); b64_char (sextet n 12); b64_pad; b64_pad]
      | b :: bs2 =>
          match bs2 with
          | [] =>
              let n := N.lor (N.shiftl a 16) (N.shiftl b 8) in
              [b64_char (sextet n 18); b64_char (sextet n 12);
               b64_char (sextet n 6); b64_pad]
          | c :: rest =>
              let n := N.lor (N.lor (N.shiftl a 16) (N.shiftl b 8)) c in
              b64_char (sextet n 18) :: b64_char (sextet n 12)
                :: b64_char (sextet n 6) :: b64_char (sextet n 0)
                :: b64_groups rest
          end
      end
  end.

Definition b64encode (b : string) : string :=
  string_of_list_ascii (b64_groups (map N_of_ascii (list_ascii_of_string b))).

(** *** [str.format] with positional arguments

    Replacement fields are [{}] (automatic numbering) or [{N}]; doubled
    braces are literal braces.  The arguments are already converted with
    [str()].  Conversions ([!r]) and format specifications ([:x]) occur in
    no template of the program and are not modelled. *)

Definition is_digit (c : ascii) : bool :=
  let n := N_of_ascii c in ((48 <=? n) && (n <=? 57))%N.

Fixpoint digits_value (acc : nat) (l : list ascii) : nat :=
  match l with
  | [] => acc
  | c :: l' => digits_value (10 * acc + (nat_of_ascii c - 48))%nat l'
  end.

Inductive numbering : Type := Undecided | Automatic | Manual.

Definition lookup_arg (args : list string) (i : nat) : result string :=
  match nth_error args i with
  | Some a => Ok a
  | None =>
      Raise (IndexError "Replacement index out of range for positional args tuple")
  end.

Fixpoint format_go (tmpl : string) (field : option (list ascii))
    (mode : numbering) (next : nat) (args : list string) : result string :=
  match field with
  | None =>
      match tmpl with
      | EmptyString => Ok EmptyString
      | String c rest =>
          if Ascii.eqb c "{" then
            match rest with
            | String "{" rest' =>
                rbind (format_go rest' None mode next args)
                      (fun out => Ok (String "{" out))
            | _ => format_go rest (Some []) mode next args
            end
          else if Ascii.eqb c "}" then
            match rest with
            | String "}" rest' =>
                rbind (format_go rest' None mode next args)
                      (fun out => Ok (String "}" out))
            | _ => Raise (ValueError "Single '}' encountered in format string")
            end
          else
            rbind (format_go rest None mode next args)
                  (fun out => Ok (String c out))
      end
  | Some name =>
      match tmpl with
      | EmptyString => Raise (ValueError "expected '}' before end of string")
      | String c rest =>
          if Ascii.eqb c "}" then
            match name with
            | [] =>
                match mode with
                | Manual =>
                    Raise (ValueError "cannot switch from manual field specification to automatic field numbering")
                | _ =>
                    rbind (lookup_arg args next) (fun a =>
                    rbind (format_go rest None Automatic (S next) args)
                          (fun out => Ok (a +:+ out)))
                end
            | _ :: _ =>
                if forallb is_digit name then
                  match mode with
                  | Automatic =>
                      Raise (ValueError "cannot switch from automatic field numbering to manual field specification")
                  | _ =>
                      rbind (lookup_arg args (digits_value 0 name)) (fun a =>
                      rbind (format_go rest None Manual next args)
                            (fun out => Ok (a +:+ out)))
                  end
                else Raise (Unmodelled "named or compound replacement field")
            end
          else format_go rest (Some (name ++ [c])%list) mode next args
      end
  end.

(** [tmpl.format( *args )] *)
Definition format (tmpl : string) (args : list string) : result string :=
  format_go tmpl None Undecided 0%nat args.

(** ** [datetime] *)

Record datetime : Type := {
  dt_year : Z; dt_month : Z; dt_day : Z;
  dt_hour : Z; dt_minute : Z; dt_second : Z; dt_microsecond : Z
}.

Definition is_leap (y : Z) : bool :=
  (y mod 4 =? 0) && (negb (y mod 100 =? 0) || (y mod 400 =? 0)).

Definition days_in_month (y m : Z) : Z :=
  if (m =? 2) && is_leap y then 29
  else nth (Z.to_nat m) [0; 31; 28; 31; 30; 31; 30; 31; 31; 30; 31; 30; 31] 0.

(** Whether a Python [int] converts to a C [int], which is what the
    constructor of [datetime] takes its fields as, and the [OverflowError]
    of the conversion when it does not (worded as on a platform whose C
    [long] has 64 bits). *)
Definition fits_c_int (z : Z) : bool :=
  (-2147483648 <=? z) && (z <=? 2147483647).

Definition c_int_overflow (z : Z) : exn :=
  if (z <? -9223372036854775808) || (9223372036854775807 <? z) then
    OverflowError "Python int too large to convert to C long"
  else if 2147483647 <? z then
    OverflowError "signed integer is greater than maximum"
  else
    OverflowError "signed integer is less than minimum".

(** [datetime(year, month, day, hour)]: the four arguments are converted
    to C [int]s in order, then the date fields are checked, then the time
    fields; there is no normalisation of out-of-range fields.  (Messages
    as CPython 3.11 words them.) *)
Definition datetime_new (y m d h : Z) : result datetime :=
  if negb (fits_c_int y) then Raise (c_int_overflow y)
  else if negb (fits_c_int m) then Raise (c_int_overflow m)
  else if negb (fits_c_int d) then Raise (c_int_overflow d)
  else if negb (fits_c_int h) then Raise (c_int_overflow h)
  else if negb ((1 <=? y) && (y <=? 9999)) then
    Raise (ValueError ("year " +:+ pretty y +:+ " is out of range"))
  else if negb ((1 <=? m) && (m <=? 12)) then
    Raise (ValueError "month must be in 1..12")
  else if negb ((1 <=? d) && (d <=? days_in_month y m)) then
    Raise (ValueError "day is out of range for month")
  else if negb ((0 <=? h) && (h <=? 23)) then
    Raise (ValueError "hour must be in 0..23")
  else
    Ok {| dt_year := y; dt_month := m; dt_day := d; dt_hour := h;
          dt_minute := 0; dt_second := 0; dt_microsecond := 0 |}.

(** [%0<w>d] for a non-negative number. *)
Definition zpad (w : nat) (z : Z) : string :=
  let s := pretty z in
  string_of_list_ascii (replicate (w - String.length s) "0"%char) +:+ s.

(** [d.isoformat(timespec="seconds")] *)
Definition isoformat_seconds (d : datetime) : string :=
  zpad 4 (dt_year d) +:+ "-" +:+ zpad 2 (dt_month d) +:+ "-" +:+ zpad 2 (dt_day d)
    +:+ "T" +:+ zpad 2 (dt_hour d) +:+ ":" +:+ zpad 2 (dt_minute d)
    +:+ ":" +:+ zpad 2 (dt_second d).

(** [d.isoformat()]: the fraction is printed only when it is non-zero. *)
Definition isoformat (d : datetime) : string :=
  if dt_microsecond d =? 0 then isoformat_seconds d
  else isoformat_seconds d +:+ "." +:+ zpad 6 (dt_microsecond d).

(** ** Operations on Python values *)

(** [v == s] for a [str] [s]. *)
Definition py_eq_str (v : pyval) (s : string) : bool :=
  match v with
  | PStr s' => String.eqb s' s
  | _ => false
  end.

(** [v == z] for an [int] [z]: [bool] is a subtype of [int], and a float
    compares by value. *)
Definition py_eq_int (v : pyval) (z : Z) : bool :=
  match v with
  | PInt z' => z' =? z
  | PBool b => (if b then 1 else 0) =? z
  | PFloat q => Qeq_bool q (inject_Z z)
  | _ => false
  end.

Definition type_name (v : pyval) : string :=
  match v with
  | PNone => "NoneType"
  | PBool _ => "bool"
  | PInt _ => "int"
  | PFloat _ => "float"
  | PStr _ => "str"
  | PList _ => "list"
  | PDict _ => "dict"
  end.

(** [type(v) is int] *)
Definition type_is_int (v : pyval) : bool :=
  match v with
  | PInt _ => true
  | _ => false
  end.

(** [k in v] for a [str] [k]: key test on a dict, element test on a list,
    substring test on a str; anything else is not a container. *)
Definition py_contains (k : string) (v : pyval) : result bool :=
  match v with
  | PDict d => Ok (Dict.mem k d)
  | PList l => Ok (existsb (fun x => py_eq_str x k) l)
  | PStr s => Ok (match String.index 0 k s with Some _ => true | None => false end)
  | _ => Raise (TypeError ("argument of type '" +:+ type_name v +:+ "' is not iterable"))
  end.

(** [v.get(k)] *)
Definition py_get (k : string) (v : pyval) : result pyval :=
  match v with
  | PDict d => Ok (match Dict.get k d with Some x => x | None => PNone end)
  | _ => Raise (AttributeError ("'" +:+ type_name v +:+ "' object has no attribute 'get'"))
  end.

(** [v[k]] for a [str] [k] *)
Definition py_getitem (v : pyval) (k : string) : result pyval :=
  match v with
  | PDict d =>
      match Dict.get k d with
      | Some x => Ok x
      | None => Raise (KeyError k)
      end
  | PList _ => Raise (TypeError "list indices must be integers or slices, not str")
  | PStr _ => Raise (TypeError "string indices must be integers, not 'str'")
  | _ => Raise (TypeError ("'" +:+ type_name v +:+ "' object is not subscriptable"))
  end.

(** [v[k] = x] for a [str] [k] *)
Definition py_setitem (v : pyval) (k : string) (x : pyval) : result pyval :=
  match v with
  | PDict d => Ok (PDict (Dict.set k x d))
  | PList _ => Raise (TypeError "list indices must be integers or slices, not str")
  | _ => Raise (TypeError ("'" +:+ type_name v +:+ "' object does not support item assignment"))
  end.

(** The elements a [for] loop visits. *)
Definition py_iter (v : pyval) : result (list pyval) :=
  match v with
  | PList l => Ok l
  | PDict d => Ok (map PStr (Dict.keys d))
  | PStr s => Ok (map (fun c => PStr (String c EmptyString)) (list_ascii_of_string s))
  | _ => Raise (TypeError ("'" +:+ type_name v +:+ "' object is not iterable"))
  end.

(** Truth value of an optional [int] and of an optional [str] argument. *)
Definition truthy_int (o : option Z) : bool :=
  match o with
  | Some z => negb (z =? 0)
  | None => false
  end.

Definition truthy_str (o : option string) : bool :=
  match o with
  | Some s => negb (String.eqb s "")
  | None => false
  end.

Definition opt_int (o : option Z) : pyval :=
  match o with Some z => PInt z | None => PNone end.

Definition opt_str (o : option string) : pyval :=
  match o with Some s => PStr s | None => PNone end.

(** [int(now)] for a float: truncation towards zero. *)
Definition int_of_float (q : Q) : Z :=
  if Qle_bool 0 q then Qfloor q else Qceiling q.

(** The alias [NumStr = Union[str, int]]. *)
Inductive NumStr : Type :=
| NInt (z : Z)
| NStr (s : string).

Definition numstr_val (n : NumStr) : pyval :=
  match n with
  | NInt z => PInt z
  | NStr s => PStr s
  end.

(** [str(n)], as [str.format] applies it. *)
Definition numstr_str (n : NumStr) : string :=
  match n with
  | NInt z => pretty z
  | NStr s => s
  end.

(** ** Endpoints *)

Module Endpoints.
Definition TIME_ENTRIES := "https://api.track.toggl.com/api/v9/workspaces/{}/time_entries".
Definition TIME_ENTRY := "https://api.track.toggl.com/api/v9/workspaces/{}/time_entries/{}".
Definition CURRENT := "https://api.track.toggl.com/api/v9/me/time_entries/current".
Definition START := "https://api.track.toggl.com/api/v9/workspaces/{}/time_entries".
Definition STOP := "https://api.track.toggl.com/api/v9/workspaces/{}/time_entries/{}/stop".
Definition CLIENTS := "https://api.track.toggl.com/api/v9/me/clients".
Definition PROJECTS := "https://api.track.toggl.com/api/v9/me/projects".
Definition WORKSPACES := "https://api.track.toggl.com/api/v9/me/workspaces".
Definition WORKSPACE_PROJECTS := "https://api.track.toggl.com/api/v9/workspaces/{0}/projects".
Definition WORKSPACE_CLIENTS := "https://api.track.toggl.com/api/v9/workspaces/{0}/clients".
Definition PROJECT_TASKS := "https://api.track.toggl.com/api/v9/workspaces/{0}/projects/{1}/tasks".
Definition TASKS := "https://api.track.toggl.com/api/v9/workspaces/{0}/projects/{1}/tasks".
Definition CURRENT_RUNNING_TIME := "https://api.track.toggl.com/api/v9/me/time_entries/current".
End Endpoints.

(** ** Transport, externals and client state *)

(** [urllib.request.Request(url, data=..., headers=..., method=...)] *)
Record Request : Type := {
  req_url : string;
  req_data : option string;
  req_headers : gmap string string;
  req_method : option string
}.

(** [Request.get_method()] *)
Definition get_method (r : Request) : string :=
  match req_method r with
  | Some m => m
  | None => match req_data r with Some _ => "POST" | None => "GET" end
  end.

(** What [urlopen] returns: [.code] and [.read()]. *)
Record Response : Type := {
  resp_code : Z;
  resp_body : string
}.

(** Everything the client consumes as a black box.  [W] is the state of
    the outside world (server and clock). *)
Record Externals (W : Type) : Type := {
  (** [json.JSONDecoder().decode]; [None] is [JSONDecodeError]. *)
  json_decode : string -> option pyval;
  (** [json.JSONEncoder().encode] *)
  json_encode : pyval -> string;
  (** [urllib.parse.urlencode] *)
  urlencode : pydict -> string;
  (** [urlopen(request, cafile=cafile)]; raises [HTTPError] or [URLError]. *)
  urlopen : Request -> option string -> W -> result Response * W;
  (** The module-level [cafile]: [certifi.where()] or [None]. *)
  cafile : option string;
  (** Whether [bytes.decode('utf-8')] accepts the bytes. *)
  utf8_valid : string -> bool;
  (** [time.time()] *)
  time_time : W -> Q * W;
  (** [datetime.now()] *)
  datetime_now : W -> datetime * W;
  (** [datetime.utcfromtimestamp] *)
  utcfromtimestamp : Q -> result datetime;
  (** [int(s)] for a [str]; [None] is [ValueError]. *)
  int_of_str : string -> option Z;
  (** [repr(v)], which is [str(v)] for a float, a list or a dict. *)
  py_repr : pyval -> string
}.
Arguments json_decode {W} _ _.
Arguments json_encode {W} _ _.
Arguments urlencode {W} _ _.
Arguments urlopen {W} _ _ _ _.
Arguments cafile {W} _.
Arguments utf8_valid {W} _ _.
Arguments time_time {W} _ _.
Arguments datetime_now {W} _ _.
Arguments utcfromtimestamp {W} _ _.
Arguments int_of_str {W} _ _.
Arguments py_repr {W} _ _.

(** The client: [headers] is the class-level dict every method mutates in
    place, [user_agent] the attribute [setUserAgent] assigns.  [sent] logs
    each request handed to [urlopen], [stdout] each printed line. *)
Record State (W : Type) : Type := {
  world : W;
  headers : gmap string string;
  user_agent : string;
  sent : list Request;
  stdout : list string
}.
Arguments world {W} _.
Arguments headers {W} _.
Arguments user_agent {W} _.
Arguments sent {W} _.
Arguments stdout {W} _.

(** The class attributes as written in the source. *)
Definition initial_headers : gmap string string :=
  <["Authorization" := ""]>
  (<["Content-Type" := "application/json"]>
  (<["Accept" := "*/*"]>
  (<["User-Agent" := "python/urllib"]> ∅))).

Definition initial_state {W} (w : W) : State W :=
  {| world := w; headers := initial_headers; user_agent := "TogglPy";
     sent := []; stdout := [] |}.

(** *** The monad of methods *)

Definition M (W A : Type) : Type := State W -> result A * State W.

#[global] Instance M_ret {W} : MRet (M W) := fun A a st => (Ok a, st).

#[global] Instance M_bind {W} : MBind (M W) := fun A B k c st =>
  match c st with
  | (Ok a, st') => k a st'
  | (Raise e, st') => (Raise e, st')
  end.

Definition raise {W A} (e : exn) : M W A := fun st => (Raise e, st).

Definition lift {W A} (r : result A) : M W A := fun st => (r, st).

Definition get_state {W} : M W (State W) := fun st => (Ok st, st).

Definition set_header {W} (k v : string) : M W unit := fun st =>
  (Ok tt, {| world := world st; headers := <[k := v]> (headers st);
             user_agent := user_agent st; sent := sent st; stdout := stdout st |}).

Definition set_user_agent {W} (agent : string) : M W unit := fun st =>
  (Ok tt, {| world := world st; headers := headers st;
             user_agent := agent; sent := sent st; stdout := stdout st |}).

Definition print {W} (line : string) : M W unit := fun st =>
  (Ok tt, {| world := world st; headers := headers st;
             user_agent := user_agent st; sent := sent st;
             stdout := stdout st ++ [line] |}).

(** Run a clock reading or another effect on the world alone. *)
Definition on_world {W A} (f : W -> A * W) : M W A := fun st =>
  let (a, w) := f (world st) in
  (Ok a, {| world := w; headers := headers st; user_agent := user_agent st;
            sent := sent st; stdout := stdout st |}).

(** ** The class [Toggl] *)

Section Toggl.
Context {W : Type} (X : Externals W).

(** [urlopen(Request(...), cafile=cafile)]: the request is logged, then
    handed to the transport.  The construction of the [Request] is taken
    to succeed.  It does for every URL on the host of the API, which is
    where each template of [Endpoints] points; for other text the
    constructor can refuse the URL with [ValueError] before anything is
    sent, so the statements about an endpoint of the caller's choosing
    are made for URLs on that host. *)
Definition do_urlopen (req : Request) : M W Response := fun st =>
  let (r, w) := urlopen X req (cafile X) (world st) in
  (r, {| world := w; headers := headers st; user_agent := user_agent st;
         sent := sent st ++ [req]; stdout := stdout st |}).

(** [b.decode('utf-8')] *)
Definition decode_utf8 (b : string) : result string :=
  if utf8_valid X b then Ok b else Raise UnicodeDecodeError.

(** [int(n)] *)
Definition py_int (n : NumStr) : result Z :=
  match n with
  | NInt z => Ok z
  | NStr s =>
      match int_of_str X s with
      | Some z => Ok z
      | None =>
          Raise (ValueError ("invalid literal for int() with base 10: "
                               +:+ py_repr X (PStr s)))
      end
  end.

(** [int(n)] for an argument that defaults to [None]. *)
Definition py_int_opt (n : option NumStr) : result Z :=
  match n with
  | Some n => py_int n
  | None =>
      Raise (TypeError "int() argument must be a string, a bytes-like object or a real number, not 'NoneType'")
  end.

(** [str(v)], as [str.format] applies it. *)
Definition py_str (v : pyval) : string :=
  match v with
  | PNone => "None"
  | PBool true => "True"
  | PBool false => "False"
  | PInt z => pretty z
  | PStr s => s
  | _ => py_repr X v
  end.

(** *** Auxiliary methods *)

Definition decodeJSON (json_string : string) : result pyval :=
  match json_decode X json_string with
  | None => Raise JSONDecodeError
  | Some decoded =>
      rbind (py_contains "tag_ids" decoded) (fun has =>
      rbind (if has then rbind (py_get "tag_ids" decoded)
                               (fun t => Ok (match t with PNone => true | _ => false end))
             else Ok false) (fun cond =>
      if cond then py_setitem decoded "tag_ids" (PList [])
      else Ok decoded))
  end.

(** *** Methods that modify the headers *)

Definition setAPIKey (api_key : string) : M W unit :=
  let authHeader := api_key +:+ ":" +:+ "api_token" in
  b ← lift (decode_ascii (b64encode (encode authHeader)));
  let authHeader := "Basic " +:+ rstrip b in
  set_header "Authorization" authHeader.

Definition setAuthCredentials (email password : string) : M W unit :=
  auth_header ← lift (format "{0}:{1}" [email; password]);
  b ← lift (decode_ascii (b64encode (encode auth_header)));
  let auth_header := "Basic " +:+ rstrip b in
  set_header "Authorization" auth_header.

Definition setUserAgent (agent : string) : M W unit :=
  set_user_agent agent.

(** *** Requests *)

Definition requestRaw (endpoint : string) (parameters : option pydict)
    : M W string :=
  st ← get_state;
  match parameters with
  | None =>
      r ← do_urlopen {| req_url := endpoint; req_data := None;
                        req_headers := headers st; req_method := None |};
      mret (resp_body r)
  | Some parameters =>
      let parameters :=
        if negb (Dict.mem "user_agent" parameters)
        then Dict.set "user_agent" (PStr (user_agent st)) parameters
        else parameters in
      let endpoint := endpoint +:+ "?" +:+ urlencode X parameters in
      r ← do_urlopen {| req_url := endpoint; req_data := None;
                        req_headers := headers st; req_method := None |};
      mret (resp_body r)
  end.

Definition request (endpoint : string) (parameters : option pydict)
    : M W pyval :=
  raw ← requestRaw endpoint parameters;
  text ← lift (decode_utf8 raw);
  lift (decodeJSON text).

(** [postRequest] returns the status code for DELETE and the body text
    otherwise. *)
Inductive PostResult : Type :=
| Code (c : Z)
| Text (s : string).

Definition postRequest (endpoint : string) (parameters : option pyval)
    (method : string) : M W PostResult :=
  st ← get_state;
  if String.eqb method "DELETE" then
    r ← do_urlopen {| req_url := endpoint; req_data := None;
                      req_headers := headers st; req_method := Some method |};
    mret (Code (resp_code r))
  else
    match parameters with
    | None =>
        r ← do_urlopen {| req_url := endpoint; req_data := None;
                          req_headers := headers st; req_method := Some method |};
        text ← lift (decode_utf8 (resp_body r));
        mret (Text text)
    | Some parameters =>
        let data := json_encode X parameters in
        let binary_data := encode data in
        r ← do_urlopen {| req_url := endpoint; req_data := Some binary_data;
                          req_headers := headers st; req_method := Some method |};
        text ← lift (decode_utf8 (resp_body r));
        mret (Text text)
    end.

(** [self.decodeJSON(r)] on what [postRequest] returned: the decoder
    accepts text only. *)
Definition decodeJSON_post (r : PostResult) : result pyval :=
  match r with
  | Text s => decodeJSON s
  | Code _ => Raise (TypeError "expected string or bytes-like object, got 'int'")
  end.

(** *** Time entries *)

Definition startTimeEntry (description : NumStr) (wid : NumStr)
    (pid : option NumStr) (tag : option string) : M W pyval :=
  now ← on_world (time_time X);
  d ← lift (utcfromtimestamp X now);
  let start_rfc3339 := isoformat_seconds d +:+ "Z" in
  let tags : list pyval := [] in
  let tags := if truthy_str tag then (tags ++ [opt_str tag])%list else tags in
  st ← get_state;
  let duration := -1 * int_of_float now in
  workspace_id ← lift (py_int wid);
  project_id ← lift (py_int_opt pid);
  let json_dict := PDict [
    ("tags", PList tags);
    ("start", PStr start_rfc3339);
    ("duration", PInt duration);
    ("workspace_id", PInt workspace_id);
    ("project_id", PInt project_id);
    ("description", numstr_val description);
    ("created_with", PStr (user_agent st))
  ] in
  url ← lift (format Endpoints.START [numstr_str wid]);
  state ← postRequest url (Some json_dict) "POST";
  lift (decodeJSON_post state).

Definition currentRunningTimeEntry (state : pyval) : M W pyval :=
  match state with
  | PNone => request Endpoints.CURRENT_RUNNING_TIME None
  | _ => mret state
  end.

Definition stopTimeEntry (state : pyval) : M W pyval :=
  state ← currentRunningTimeEntry state;
  match state with
  | PNone => mret PNone
  | _ =>
      wid ← lift (py_getitem state "workspace_id");
      id ← lift (py_getitem state "id");
      url ← lift (format Endpoints.STOP [py_str wid; py_str id]);
      state ← postRequest url None "PATCH";
      lift (decodeJSON_post state)
  end.

(** [datetime.now().<field> if not v else v] *)
Definition or_now (field : datetime -> Z) (v : option Z) : M W Z :=
  if negb (truthy_int v) then
    d ← on_world (datetime_now X);
    mret (field d)
  else
    mret (default 0 v).

Definition createTimeEntry (hour_duration : Z) (wid : Z)
    (description : option string) (project_id : option Z)
    (projectname : option string) (taskid : option Z)
    (client_name : option string) (year month day hour : option Z)
    (billable : bool) (hour_diff : Z) : M W pyval :=
  project_id ←
    (if negb (truthy_int project_id) then
       if truthy_str projectname && truthy_str client_name then
         raise (AttributeError "'Toggl' object has no attribute 'getClientProject'")
       else if truthy_str projectname then
         raise (AttributeError "'Toggl' object has no attribute 'searchClientProject'")
       else
         print "Too many missing parameters for query";;
         raise (SystemExit 1)
     else mret (default 0 project_id));
  year ← or_now dt_year year;
  month ← or_now dt_month month;
  day ← or_now dt_day day;
  hour ← or_now dt_hour hour;
  d ← lift (datetime_new year month day (hour + hour_diff));
  let timestruct := isoformat d +:+ ".000Z" in
  let time_entry := [
    ("start", PStr timestruct);
    ("duration", PInt (hour_duration * 3600));
    ("pid", PInt project_id);
    ("created_with", PStr "NAME");
    ("billable", PBool billable)
  ] in
  let time_entry :=
    if truthy_str description
    then Dict.set "description" (opt_str description) time_entry
    else time_entry in
  let time_entry :=
    if truthy_int taskid
    then Dict.set "tid" (opt_int taskid) time_entry
    else time_entry in
  url ← lift (format Endpoints.TIME_ENTRIES [pretty wid]);
  response ← postRequest url (Some (PDict time_entry)) "POST";
  lift (decodeJSON_post response).

Definition putTimeEntry (parameters : pyval) : M W pyval :=
  has_id ← lift (py_contains "id" parameters);
  if negb has_id then
    raise (PyException "An id must be provided in order to put a time entry" None)
  else
  id ← lift (py_getitem parameters "id");
  if negb (type_is_int id) then
    raise (PyException "Invalid id %s provided " (Some id))
  else
  has_wid ← lift (py_contains "workspace_id" parameters);
  if negb has_wid then
    raise (PyException "A workspace_id must be provided in order to put a time entry" None)
  else
  wid ← lift (py_getitem parameters "workspace_id");
  if negb (type_is_int wid) then
    raise (PyException "Invalid workspace_id %s provided " (Some wid))
  else
  endpoint ← lift (format Endpoints.TIME_ENTRY [py_str wid; py_str id]);
  response ← postRequest endpoint (Some parameters) "PUT";
  lift (decodeJSON_post response).

Definition deleteTimeEntry (workspace_id entry_id : Z) : M W PostResult :=
  endpoint ← lift (format Endpoints.TIME_ENTRY [pretty workspace_id; pretty entry_id]);
  postRequest endpoint None "DELETE".

(** *** Workspaces, clients, projects, tasks *)

Definition getWorkspaces : M W pyval :=
  request Endpoints.WORKSPACES None.

(** The body of the two search loops: [for x in xs: if x[key] == <rhs>:
    return x], followed by [return None].  The right operand is evaluated
    anew in every iteration, after [x[key]]. *)
Fixpoint scan (key : string) (test : pyval -> result bool) (xs : list pyval)
    : result pyval :=
  match xs with
  | [] => Ok PNone
  | x :: xs' =>
      rbind (py_getitem x key) (fun v =>
      rbind (test v) (fun hit =>
      if hit then Ok x else scan key test xs'))
  end.

Definition by_name (name : option string) (v : pyval) : result bool :=
  Ok (match name with
      | Some n => py_eq_str v n
      | None => match v with PNone => true | _ => false end
      end).

Definition by_id (id : NumStr) (v : pyval) : result bool :=
  rbind (py_int id) (fun i => Ok (py_eq_int v i)).

Definition getWorkspace (name : option string) (workspace_id : option NumStr)
    : M W pyval :=
  workspaces ← getWorkspaces;
  match name, workspace_id with
  | None, None =>
      print "Error in getWorkspace(), please enter either a name or an id as a filter";;
      mret PNone
  | _, None =>
      xs ← lift (py_iter workspaces);
      lift (scan "name" (by_name name) xs)
  | _, Some workspace_id =>
      xs ← lift (py_iter workspaces);
      lift (scan "id" (by_id workspace_id) xs)
  end.

Definition getWorkspaceProjects (workspace_id : Z) : M W pyval :=
  url ← lift (format Endpoints.WORKSPACE_PROJECTS [pretty workspace_id]);
  request url None.

Definition getClients : M W pyval :=
  request Endpoints.CLIENTS None.

Definition getClient (name : option string) (client_id : option NumStr)
    : M W pyval :=
  clients ← getClients;
  match name, client_id with
  | None, None =>
      print "Error in getClient(), please enter either a name or an id as a filter";;
      mret PNone
  | _, None =>
      xs ← lift (py_iter clients);
      lift (scan "name" (by_name name) xs)
  | _, Some client_id =>
      xs ← lift (py_iter clients);
      lift (scan "id" (by_id client_id) xs)
  end.

Definition getProjects : M W pyval :=
  request Endpoints.PROJECTS None.

Definition getProject (wid pid : NumStr) : M W pyval :=
  base ← lift (format Endpoints.WORKSPACE_PROJECTS [numstr_str wid]);
  tail ← lift (format "/{0}" [numstr_str pid]);
  request (base +:+ tail) None.

Definition getProjectTasks (wid pid : NumStr) : M W pyval :=
  url ← lift (format Endpoints.PROJECT_TASKS [numstr_str wid; numstr_str pid]);
  request url None.

Definition createTask (name : string) (wid pid : NumStr) (active : bool)
    (estimated_seconds : bool) : M W pyval :=
  workspace_id ← lift (py_int wid);
  project_id ← lift (py_int pid);
  let data := PDict [
    ("name", PStr name);
    ("workspace_id", PInt workspace_id);
    ("project_id", PInt project_id);
    ("active", PBool active);
    ("estimated_seconds", PBool estimated_seconds)
  ] in
  url ← lift (format Endpoints.TASKS [numstr_str wid; numstr_str pid]);
  response ← postRequest url (Some data) "POST";
  lift (decodeJSON_post response).

Definition createClient (name : string) (wid : Z) (notes : option string)
    : M W pyval :=
  let data := PDict [
    ("name", PStr name);
    ("wid", PInt wid);
    ("notes", opt_str notes)
  ] in
  url ← lift (format Endpoints.WORKSPACE_CLIENTS [pretty wid]);
  response ← postRequest url (Some data) "POST";
  lift (decodeJSON_post response).

Definition updateClient (wid id : Z) (name notes : option string)
    : M W pyval :=
  let data := PDict [
    ("name", opt_str name);
    ("notes", opt_str notes);
    ("wid:", PInt wid)
  ] in
  base ← lift (format Endpoints.WORKSPACE_CLIENTS [pretty wid]);
  tail ← lift (format "/{0}" [pretty id]);
  response ← postRequest (base +:+ tail) (Some data) "PUT";
  lift (decodeJSON_post response).

Definition deleteClient (wid id : Z) : M W PostResult :=
  base ← lift (format Endpoints.WORKSPACE_CLIENTS [pretty wid]);
  tail ← lift (format "/{0}" [pretty id]);
  postRequest (base +:+ tail) None "DELETE".

End Toggl.

(** ** Vocabulary of the statements *)

(** A character that survives both [decode('ascii')] and [rstrip()]. *)
Definition plain (c : ascii) : Prop :=
  is_ascii c = true /\ is_py_space c = false.

(** The client state with another header mapping, world, request log or
    output. *)
Definition with_headers {W} (st : State W) (h : gmap string string) : State W :=
  {| world := world st; headers := h; user_agent := user_agent st;
     sent := sent st; stdout := stdout st |}.

Definition with_world {W} (st : State W) (w : W) : State W :=
  {| world := w; headers := headers st; user_agent := user_agent st;
     sent := sent st; stdout := stdout st |}.

Definition with_sent {W} (st : State W) (w : W) (r : Request) : State W :=
  {| world := w; headers := headers st; user_agent := user_agent st;
     sent := sent st ++ [r]; stdout := stdout st |}.

Definition with_stdout {W} (st : State W) (line : string) : State W :=
  {| world := world st; headers := headers st; user_agent := user_agent st;
     sent := sent st; stdout := stdout st ++ [line] |}.

(** The request a method builds from the current headers. *)
Definition request_of {W} (st : State W) (url : string) (data : option string)
    (method : option string) : Request :=
  {| req_url := url; req_data := data; req_headers := headers st;
     req_method := method |}.

(** The data model's entities: objects with an integer [id] and a string
    [name]. *)
Definition is_entity (v : pyval) : Prop :=
  match v with
  | PDict d =>
      (exists i, Dict.get "id" d = Some (PInt i))
      /\ (exists n, Dict.get "name" d = Some (PStr n))
  | _ => False
  end.

(** The lookups as the specification words them: the first element, in
    listing order, whose [id] is exactly the integer, or whose [name] is
    exactly the string; [None] when there is none. *)
Definition has_id (i : Z) (v : pyval) : bool :=
  match v with
  | PDict d => match Dict.get "id" d with Some (PInt j) => j =? i | _ => false end
  | _ => false
  end.

Definition has_name (n : string) (v : pyval) : bool :=
  match v with
  | PDict d => match Dict.get "name" d with Some (PStr m) => String.eqb m n | _ => false end
  | _ => false
  end.

Definition first_match (p : pyval -> bool) (xs : list pyval) : pyval :=
  default PNone (List.find p xs).

(** The value [createTimeEntry] uses for a date or time field: the
    argument when it is truthy, the clock's field otherwise, in which case
    the clock has been read once more. *)
Definition resolved {W} (X : Externals W) (field : datetime -> Z)
    (v : option Z) (w : W) : Z :=
  if truthy_int v then default 0 v else field (fst (datetime_now X w)).

Definition clock_after {W} (X : Externals W) (v : option Z) (w : W) : W :=
  if truthy_int v then w else snd (datetime_now X w).

(** The object [createTimeEntry] posts, for a given [start]. *)
Definition time_entry (start : string) (hour_duration project_id : Z)
    (billable : bool) (description : option string) (taskid : option Z) : pyval :=
  PDict
    ([("start", PStr start); ("duration", PInt (hour_duration * 3600));
      ("pid", PInt project_id); ("created_with", PStr "NAME");
      ("billable", PBool billable)]
     ++ (if truthy_str description then [("description", opt_str description)] else [])
     ++ (if truthy_int taskid then [("tid", opt_int taskid)] else [])).

(** *** A concrete world

    A server that answers by URL from a table, a codec that decodes by
    table and prints values in a JSON-like way, and a clock that stands
    still.  It instantiates the general statements on concrete calls. *)

Fixpoint assoc {A} (k : string) (l : list (string * A)) : option A :=
  match l with
  | [] => None
  | (k', a) :: l' => if String.eqb k' k then Some a else assoc k l'
  end.

Fixpoint print_value (v : pyval) : string :=
  match v with
  | PNone => "null"
  | PBool true => "true"
  | PBool false => "false"
  | PInt z => pretty z
  | PFloat _ => "<float>"
  | PStr s => "'" +:+ s +:+ "'"
  | PList l =>
      "[" +:+ (fix items (l : list pyval) : string :=
                 match l with
                 | [] => ""
                 | x :: l' => print_value x +:+ "," +:+ items l'
                 end) l +:+ "]"
  | PDict d =>
      "{" +:+ (fix items (d : pydict) : string :=
                 match d with
                 | [] => ""
                 | (k, x) :: d' => "'" +:+ k +:+ "':" +:+ print_value x +:+ "," +:+ items d'
                 end) d +:+ "}"
  end.

Definition table_world (now : datetime) (unix : Q) (docs : list (string * pyval))
    (site : list (string * Response)) : Externals unit :=
  {| json_decode := fun s => assoc s docs;
     json_encode := print_value;
     urlencode := fun _ => "";
     urlopen := fun r _ w =>
       (match assoc (req_url r) site with
        | Some resp => Ok resp
        | None => Raise (HTTPError 404 "")
        end, w);
     cafile := None;
     utf8_valid := fun _ => true;
     time_time := fun w => (unix, w);
     datetime_now := fun w => (now, w);
     utcfromtimestamp := fun _ => Ok now;
     int_of_str := fun _ => None;
     py_repr := print_value |}.

(** 15 January 2024, 09:00 local time. *)
Definition jan15 : datetime :=
  {| dt_year := 2024; dt_month := 1; dt_day := 15; dt_hour := 9;
     dt_minute := 0; dt_second := 0; dt_microsecond := 0 |}.

(** Two workspaces and a client, as the listings return them. *)
Definition home : pyval := PDict [("id", PInt 1); ("name", PStr "Home")].
Definition work : pyval := PDict [("id", PInt 2); ("name", PStr "Work")].
Definition acme : pyval := PDict [("id", PInt 31); ("name", PStr "Acme"); ("wid", PInt 2)].

(** A server on which nothing is running.  Response bodies stand for the
    JSON text; the decoding table gives their values.  The clock shows
    half a second past 09:00 UTC on 15 January 2024. *)
Definition idle : Externals unit :=
  table_world jan15 (3410618401 # 2)
    [("null", PNone); ("[home,work]", PList [home; work]); ("[acme]", PList [acme])]
    [(Endpoints.CURRENT_RUNNING_TIME, {| resp_code := 200; resp_body := "null" |});
     (Endpoints.WORKSPACES, {| resp_code := 200; resp_body := "[home,work]" |});
     (Endpoints.CLIENTS, {| resp_code := 200; resp_body := "[acme]" |})].

Definition st0 : State unit := initial_state tt.

(** ** Vocabulary of the further properties *)

(** A JSON object. *)
Definition is_object (v : pyval) : Prop :=
  match v with
  | PDict _ => True
  | _ => False
  end.

(** The same externals with another clock behind [datetime.now()]. *)
Definition with_clock {W} (X : Externals W) (f : W -> datetime * W)
    : Externals W :=
  {| json_decode := json_decode X;
     json_encode := json_encode X;
     urlencode := urlencode X;
     urlopen := urlopen X;
     cafile := cafile X;
     utf8_valid := utf8_valid X;
     time_time := time_time X;
     datetime_now := f;
     utcfromtimestamp := utcfromtimestamp X;
     int_of_str := int_of_str X;
     py_repr := py_repr X |}.

(** What a DELETE returns: the status code of the response, or the
    transport's exception. *)
Definition status_of (r : result Response) : result PostResult :=
  match r with
  | Ok resp => Ok (Code (resp_code resp))
  | Raise e => Raise e
  end.

(** A listing whose only entry has no tags. *)
Definition untagged : Externals unit :=
  table_world jan15 0
    [("[entry]", PList [PDict [("id", PInt 7); ("tag_ids", PNone)]]);
     ("entry", PDict [("id", PInt 7); ("workspace_id", PInt 5); ("tag_ids", PNone)])]
    [(Endpoints.CURRENT_RUNNING_TIME, {| resp_code := 200; resp_body := "entry" |})].

(** *** Sessions

    A computation is [tidy n] when, from every state, it appends at most
    [n] requests to the log, each carrying the headers of the state it
    started from, and leaves the headers and the user agent alone. *)
Definition tidy {W A} (n : nat) (c : M W A) : Prop :=
  forall st,
    exists l,
      sent (snd (c st)) = sent st ++ l
      /\ (length l <= n)%nat
      /\ Forall (fun r => req_headers r = headers st) l
      /\ headers (snd (c st)) = headers st
      /\ user_agent (snd (c st)) = user_agent st.

(** A call of a method of the class, with its arguments. *)
Inductive call : Type :=
| SetAPIKey (api_key : string)
| SetAuthCredentials (email password : string)
| SetUserAgent (agent : string)
| RequestRaw (endpoint : string) (parameters : option pydict)
| Request_ (endpoint : string) (parameters : option pydict)
| PostRequest (endpoint : string) (parameters : option pyval) (method : string)
| StartTimeEntry (description wid : NumStr) (pid : option NumStr) (tag : option string)
| CurrentRunningTimeEntry (state : pyval)
| StopTimeEntry (state : pyval)
| CreateTimeEntry (hour_duration wid : Z) (description : option string)
    (project_id : option Z) (projectname : option string) (taskid : option Z)
    (client_name : option string) (year month day hour : option Z)
    (billable : bool) (hour_diff : Z)
| PutTimeEntry (parameters : pyval)
| DeleteTimeEntry (workspace_id entry_id : Z)
| GetWorkspaces
| GetWorkspace (name : option string) (workspace_id : option NumStr)
| GetWorkspaceProjects (workspace_id : Z)
| GetClients
| GetClient (name : option string) (client_id : option NumStr)
| GetProjects
| GetProject (wid pid : NumStr)
| GetProjectTasks (wid pid : NumStr)
| CreateTask (name : string) (wid pid : NumStr) (active estimated_seconds : bool)
| CreateClient (name : string) (wid : Z) (notes : option string)
| UpdateClient (wid id : Z) (name notes : option string)
| DeleteClient (wid id : Z).

(** The client after a call, whatever the call returned or raised. *)
Definition step {W} (X : Externals W) (c : call) (st : State W) : State W :=
  match c with
  | SetAPIKey k => snd (setAPIKey k st)
  | SetAuthCredentials e p => snd (setAuthCredentials e p st)
  | SetUserAgent a => snd (setUserAgent a st)
  | RequestRaw e ps => snd (requestRaw X e ps st)
  | Request_ e ps => snd (request X e ps st)
  | PostRequest e ps m => snd (postRequest X e ps m st)
  | StartTimeEntry d w p t => snd (startTimeEntry X d w p t st)
  | CurrentRunningTimeEntry v => snd (currentRunningTimeEntry X v st)
  | StopTimeEntry v => snd (stopTimeEntry X v st)
  | CreateTimeEntry hd w de pi pn ti cn y mo d h b hdiff =>
      snd (createTimeEntry X hd w de pi pn ti cn y mo d h b hdiff st)
  | PutTimeEntry ps => snd (putTimeEntry X ps st)
  | DeleteTimeEntry w e => snd (deleteTimeEntry X w e st)
  | GetWorkspaces => snd (getWorkspaces X st)
  | GetWorkspace n i => snd (getWorkspace X n i st)
  | GetWorkspaceProjects w => snd (getWorkspaceProjects X w st)
  | GetClients => snd (getClients X st)
  | GetClient n i => snd (getClient X n i st)
  | GetProjects => snd (getProjects X st)
  | GetProject w p => snd (getProject X w p st)
  | GetProjectTasks w p => snd (getProjectTasks X w p st)
  | CreateTask n w p a e => snd (createTask X n w p a e st)
  | CreateClient n w no => snd (createClient X n w no st)
  | UpdateClient w i n no => snd (updateClient X w i n no st)
  | DeleteClient w i => snd (deleteClient X w i st)
  end.

(** A sequence of calls on one client, exceptions caught by the caller. *)
Definition session {W} (X : Externals W) (cs : list call) (st : State W)
    : State W :=
  fold_left (fun st c => step X c st) cs st.

(** The most requests a call makes. *)
Definition max_requests (c : call) : nat :=
  match c with
  | SetAPIKey _ | SetAuthCredentials _ _ | SetUserAgent _ => 0
  | StopTimeEntry _ => 2
  | _ => 1
  end.

(** The headers no method assigns. *)
Definition carries_static (r : Request) : Prop :=
  req_headers r !! "Content-Type" = Some "application/json"
  /\ req_headers r !! "Accept" = Some "*/*"
  /\ req_headers r !! "User-Agent" = Some "python/urllib".

(** The same externals with another [int()] on text. *)
Definition with_int_of_str {W} (X : Externals W) (f : string -> option Z)
    : Externals W :=
  {| json_decode := json_decode X;
     json_encode := json_encode X;
     urlencode := urlencode X;
     urlopen := urlopen X;
     cafile := cafile X;
     utf8_valid := utf8_valid X;
     time_time := time_time X;
     datetime_now := datetime_now X;
     utcfromtimestamp := utcfromtimestamp X;
     int_of_str := f;
     py_repr := py_repr X |}.

(** [idle] with an [int()] that reads the text ["2"]. *)
Definition idle_reading_two : Externals unit :=
  with_int_of_str idle (fun s => if String.eqb s "2" then Some 2 else None).

(** A server whose listings are empty. *)
Definition deserted : Externals unit :=
  table_world jan15 0 [("[]", PList [])]
    [(Endpoints.WORKSPACES, {| resp_code := 200; resp_body := "[]" |});
     (Endpoints.CLIENTS, {| resp_code := 200; resp_body := "[]" |})].

(** ** Vocabulary of the date fields, the lookups and the endpoints *)

(** The fields [createTimeEntry] hands to [datetime], read in this order,
    the clock being consulted anew for each one that is omitted or zero;
    [w] is the world at the start of the call. *)
Definition year_in_use {W} (X : Externals W) (year : option Z) (w : W) : Z :=
  resolved X dt_year year w.

Definition month_in_use {W} (X : Externals W) (year month : option Z) (w : W) : Z :=
  resolved X dt_month month (clock_after X year w).

Definition day_in_use {W} (X : Externals W) (year month day : option Z) (w : W)
    : Z :=
  resolved X dt_day day (clock_after X month (clock_after X year w)).

Definition hour_in_use {W} (X : Externals W) (year month day hour : option Z)
    (w : W) : Z :=
  resolved X dt_hour hour
    (clock_after X day (clock_after X month (clock_after X year w))).

(** The two lookups by name or id, side by side. *)
Inductive listing : Type := Workspaces | Clients.

Definition fetch_listing {W} (X : Externals W) (k : listing) : M W pyval :=
  match k with
  | Workspaces => getWorkspaces X
  | Clients => getClients X
  end.

Definition lookup {W} (X : Externals W) (k : listing) (name : option string)
    (id : option NumStr) : M W pyval :=
  match k with
  | Workspaces => getWorkspace X name id
  | Clients => getClient X name id
  end.

Definition lookup_error (k : listing) : string :=
  match k with
  | Workspaces =>
      "Error in getWorkspace(), please enter either a name or an id as a filter"
  | Clients =>
      "Error in getClient(), please enter either a name or an id as a filter"
  end.

(** A URL on the host of the API. *)
Definition toggl_url (url : string) : Prop :=
  String.prefix "https://api.track.toggl.com/" url = true.

(** A server that answers nothing but 404. *)
Definition offline : Externals unit := table_world jan15 0 [] [].

(** A server that knows the workspaces and nothing else. *)
Definition workspaces_only : Externals unit :=
  table_world jan15 0 [("[home,work]", PList [home; work])]
    [(Endpoints.WORKSPACES, {| resp_code := 200; resp_body := "[home,work]" |})].

(** [idle] at half past one in the morning. *)
Definition small_hours : Externals unit :=
  with_clock idle
    (fun w => ({| dt_year := 2024; dt_month := 1; dt_day := 15; dt_hour := 1;
                  dt_minute := 30; dt_second := 0; dt_microsecond := 0 |}, w)).

(** * Properties *)

(** ** Strings, base64 and templates *)

Example b64_rfc4648_f : b64encode "f" = "Zg==".
Proof. reflexivity. Qed.

Example b64_rfc4648_fo : b64encode "fo" = "Zm8=".
Proof. reflexivity. Qed.

Example b64_rfc4648_foobar : b64encode "foobar" = "Zm9vYmFy".
Proof. reflexivity. Qed.

Example b64_abc_token : b64encode "ABC:api_token" = "QUJDOmFwaV90b2tlbg==".
Proof. reflexivity. Qed.

Lemma append_empty_r (s : string) : s +:+ "" = s.
Proof.
  induction s as [|c s IH]; [reflexivity|].
  change (String c (s +:+ "") = String c s). now rewrite IH.
Qed.

Lemma sextet_lt (n k : N) : (sextet n k < 64)%N.
Proof.
  unfold sextet. change 63%N with (N.ones 6).
  rewrite N.land_ones. apply N.mod_upper_bound. discriminate.
Qed.

Lemma b64_alphabet_plain : Forall plain b64_alphabet.
Proof. repeat constructor. Qed.

Lemma b64_pad_plain : plain b64_pad.
Proof. split; reflexivity. Qed.

Lemma b64_char_plain (i : N) : plain (b64_char i).
Proof.
  unfold b64_char.
  destruct (nth_in_or_default (N.to_nat i) b64_alphabet b64_pad) as [Hin | ->].
  - pose proof b64_alphabet_plain as Hall.
    rewrite Forall_forall in Hall. apply Hall. now apply list_elem_of_In.
  - apply b64_pad_plain.
Qed.

Lemma b64_groups_plain (bs : list N) :
  Forall plain (b64_groups bs)
  /\ (forall a, Forall plain (b64_groups (a :: bs)))
  /\ (forall a b, Forall plain (b64_groups (a :: b :: bs))).
Proof.
  induction bs as [|c bs (IH0 & IH1 & IH2)].
  - repeat split; intros; cbn;
      repeat (constructor; try apply b64_char_plain; try apply b64_pad_plain).
  - split; [apply IH1 | split; [intros a; apply IH2 |]].
    intros a b. cbn [b64_groups].
    repeat (constructor; try apply b64_char_plain). exact IH0.
Qed.

Lemma b64encode_plain (b : string) :
  Forall plain (list_ascii_of_string (b64encode b)).
Proof.
  unfold b64encode. rewrite list_ascii_of_string_of_list_ascii.
  apply b64_groups_plain.
Qed.

Lemma decode_ascii_plain (b : string) :
  Forall plain (list_ascii_of_string b) -> decode_ascii b = Ok b.
Proof.
  intros H. unfold decode_ascii.
  replace (forallb is_ascii (list_ascii_of_string b)) with true; [reflexivity|].
  symmetry. apply forallb_forall. intros c Hc.
  rewrite Forall_forall in H. apply H. now apply list_elem_of_In.
Qed.

Lemma drop_while_head_false {A} (p : A -> bool) (l : list A) :
  match l with [] => True | x :: _ => p x = false end -> drop_while p l = l.
Proof. destruct l as [|x l]; simpl; [reflexivity | now intros ->]. Qed.

Lemma rstrip_plain (s : string) :
  Forall plain (list_ascii_of_string s) -> rstrip s = s.
Proof.
  intros H. unfold rstrip.
  rewrite drop_while_head_false.
  - rewrite rev_involutive. apply string_of_list_ascii_of_string.
  - apply Forall_rev in H.
    destruct (rev (list_ascii_of_string s)) as [|c l]; [exact I|].
    inversion H as [|? ? [_ Hc] _]; exact Hc.
Qed.

Lemma format_pair (a b : string) :
  format "{0}:{1}" [a; b] = Ok (a +:+ ":" +:+ b).
Proof. cbv -[String.append]. rewrite append_empty_r. reflexivity. Qed.

(** The endpoint templates, instantiated. *)

Ltac run_format := cbv -[String.append]; rewrite ?append_empty_r; reflexivity.

Lemma format_STOP (a b : string) :
  format Endpoints.STOP [a; b] =
  Ok ("https://api.track.toggl.com/api/v9/workspaces/" +:+ a +:+ "/time_entries/"
        +:+ b +:+ "/stop").
Proof. run_format. Qed.

Lemma format_TIME_ENTRY (a b : string) :
  format Endpoints.TIME_ENTRY [a; b] =
  Ok ("https://api.track.toggl.com/api/v9/workspaces/" +:+ a +:+ "/time_entries/" +:+ b).
Proof. run_format. Qed.


Lemma format_START (a : string) :
  format Endpoints.START [a] =
  Ok ("https://api.track.toggl.com/api/v9/workspaces/" +:+ a +:+ "/time_entries").
Proof. run_format. Qed.

Lemma format_WORKSPACE_CLIENTS (a : string) :
  format Endpoints.WORKSPACE_CLIENTS [a] =
  Ok ("https://api.track.toggl.com/api/v9/workspaces/" +:+ a +:+ "/clients").
Proof. run_format. Qed.

Lemma format_slash (a : string) : format "/{0}" [a] = Ok ("/" +:+ a).
Proof. run_format. Qed.

Section Properties.
Context {W : Type} (X : Externals W).

Lemma setAPIKey_run (api_key : string) (st : State W) :
  setAPIKey api_key st =
  (Ok tt, with_headers st
            (<["Authorization" := "Basic " +:+ b64encode (api_key +:+ ":api_token")]>
               (headers st))).
Proof.
  unfold setAPIKey, encode, mbind, M_bind, lift.
  rewrite (decode_ascii_plain _ (b64encode_plain _)).
  rewrite (rstrip_plain _ (b64encode_plain _)).
  reflexivity.
Qed.

Lemma setAuthCredentials_run (email password : string) (st : State W) :
  setAuthCredentials email password st =
  (Ok tt, with_headers st
            (<["Authorization" := "Basic " +:+ b64encode (email +:+ ":" +:+ password)]>
               (headers st))).
Proof.
  unfold setAuthCredentials, encode, mbind, M_bind, lift.
  rewrite format_pair.
  rewrite (decode_ascii_plain _ (b64encode_plain _)).
  rewrite (rstrip_plain _ (b64encode_plain _)).
  reflexivity.
Qed.

(** C2. [setAPIKey(key)] leaves ["Basic " + base64(key + ":api_token")] in
    the [Authorization] header and [setAuthCredentials(email, password)]
    leaves ["Basic " + base64(email + ":" + password)], for every string
    and from every state; whichever is called last decides the header, so
    each call overwrites the value the other one left. *)
Theorem authorization_header (api_key email password : string) (st : State W) :
  fst (setAPIKey api_key st) = Ok tt
  /\ headers (snd (setAPIKey api_key st)) !! "Authorization"
     = Some ("Basic " +:+ b64encode (api_key +:+ ":api_token"))
  /\ fst (setAuthCredentials email password st) = Ok tt
  /\ headers (snd (setAuthCredentials email password st)) !! "Authorization"
     = Some ("Basic " +:+ b64encode (email +:+ ":" +:+ password))
  /\ headers (snd (setAuthCredentials email password (snd (setAPIKey api_key st))))
       !! "Authorization"
     = Some ("Basic " +:+ b64encode (email +:+ ":" +:+ password))
  /\ headers (snd (setAPIKey api_key (snd (setAuthCredentials email password st))))
       !! "Authorization"
     = Some ("Basic " +:+ b64encode (api_key +:+ ":api_token")).
Proof.
  rewrite ?setAPIKey_run, ?setAuthCredentials_run. cbn [fst snd with_headers headers].
  repeat split; apply lookup_insert_eq.
Qed.

(** ** The JSON normaliser *)

(** On an object the normaliser does what it is meant to do: a [null]
    under [tag_ids] becomes the empty list, anything else stays. *)
Lemma decodeJSON_object (s : string) (d : pydict) :
  json_decode X s = Some (PDict d) ->
  decodeJSON X s =
  Ok (PDict (match Dict.get "tag_ids" d with
             | Some PNone => Dict.set "tag_ids" (PList []) d
             | _ => d
             end)).
Proof.
  intros H. unfold decodeJSON. rewrite H. cbn. unfold Dict.mem.
  destruct (Dict.get "tag_ids" d) as [[]|]; reflexivity.
Qed.

(** A list that does not hold the string ["tag_ids"] passes unchanged. *)
Lemma decodeJSON_list (s : string) (l : list pyval) :
  json_decode X s = Some (PList l) ->
  existsb (fun x => py_eq_str x "tag_ids") l = false ->
  decodeJSON X s = Ok (PList l).
Proof. intros H Hl. unfold decodeJSON. rewrite H. cbn. now rewrite Hl. Qed.

(** The membership test is applied to whatever was decoded, and a list
    that holds the string, or a text that contains it, is asked for
    [.get]. *)
Lemma decodeJSON_list_of_key (s : string) :
  json_decode X s = Some (PList [PStr "tag_ids"]) ->
  decodeJSON X s = Raise (AttributeError "'list' object has no attribute 'get'").
Proof. intros H. unfold decodeJSON. rewrite H. reflexivity. Qed.

(** C1. A response that decodes to [null], a boolean or a number is not
    returned unchanged: the test ['tag_ids' in decoded] raises [TypeError]
    on it. *)
Theorem decodeJSON_scalar_raises (s : string) (v : pyval) :
  json_decode X s = Some v ->
  match v with PNone | PBool _ | PInt _ | PFloat _ => True | _ => False end ->
  decodeJSON X s =
  Raise (TypeError ("argument of type '" +:+ type_name v +:+ "' is not iterable")).
Proof.
  intros H Hv. unfold decodeJSON. rewrite H.
  destruct v; try contradiction; reflexivity.
Qed.

(** ** Requests *)

Lemma do_urlopen_run (req : Request) (st : State W) :
  do_urlopen X req st =
  (fst (urlopen X req (cafile X) (world st)),
   with_sent st (snd (urlopen X req (cafile X) (world st))) req).
Proof.
  unfold do_urlopen. destruct (urlopen X req (cafile X) (world st)); reflexivity.
Qed.

(** A bare GET: one request, whose body is decoded and normalised. *)
Lemma request_run (endpoint : string) (st : State W) :
  request X endpoint None st =
  (rbind (fst (urlopen X (request_of st endpoint None None) (cafile X) (world st)))
         (fun r => rbind (decode_utf8 X (resp_body r)) (decodeJSON X)),
   with_sent st (snd (urlopen X (request_of st endpoint None None) (cafile X) (world st)))
             (request_of st endpoint None None)).
Proof.
  unfold request, requestRaw, mbind, M_bind, get_state, lift, mret, M_ret.
  rewrite do_urlopen_run. fold (request_of st endpoint None None).
  destruct (urlopen X (request_of st endpoint None None) (cafile X) (world st))
    as [[r|e] w]; cbn; [|reflexivity].
  destruct (decode_utf8 X (resp_body r)); reflexivity.
Qed.

(** A mutating request other than DELETE: one request with the given
    method, carrying the encoded parameters when there are any. *)
Lemma postRequest_run (endpoint : string) (parameters : option pyval)
    (method : string) (st : State W) :
  String.eqb method "DELETE" = false ->
  postRequest X endpoint parameters method st =
  (let req := request_of st endpoint (json_encode X <$> parameters) (Some method) in
   (rbind (fst (urlopen X req (cafile X) (world st)))
          (fun r => rbind (decode_utf8 X (resp_body r)) (fun t => Ok (Text t))),
    with_sent st (snd (urlopen X req (cafile X) (world st))) req)).
Proof.
  intros Hm. unfold postRequest, mbind, M_bind, get_state, lift, mret, M_ret, encode.
  rewrite Hm. cbv zeta.
  destruct parameters as [params|]; cbn [fmap option_fmap option_map];
    rewrite do_urlopen_run; unfold request_of;
    match goal with
    | |- context [urlopen X ?r (cafile X) (world st)] =>
        destruct (urlopen X r (cafile X) (world st)) as [[resp|e] w]
    end; cbn; try reflexivity;
    destruct (decode_utf8 X (resp_body resp)); reflexivity.
Qed.

(** ** Stopping the running entry *)

(** C5. When nothing is running the server answers the current-entry GET
    with [null]; [stopTimeEntry()] then does not return [None]: the
    normaliser raises [TypeError] inside [currentRunningTimeEntry].  The
    GET is the only request issued. *)
Theorem stopTimeEntry_nothing_running (st : State W) (resp : Response) (w : W) :
  urlopen X (request_of st Endpoints.CURRENT_RUNNING_TIME None None)
          (cafile X) (world st) = (Ok resp, w) ->
  utf8_valid X (resp_body resp) = true ->
  json_decode X (resp_body resp) = Some PNone ->
  stopTimeEntry X PNone st =
  (Raise (TypeError "argument of type 'NoneType' is not iterable"),
   with_sent st w (request_of st Endpoints.CURRENT_RUNNING_TIME None None)).
Proof.
  intros Hopen Hutf Hjson.
  unfold stopTimeEntry, currentRunningTimeEntry, mbind, M_bind.
  rewrite request_run, Hopen. cbn [fst snd rbind].
  unfold decode_utf8. rewrite Hutf. cbn [rbind].
  unfold decodeJSON. rewrite Hjson. reflexivity.
Qed.

(** With an entry at hand, exactly one request follows: the PATCH. *)
Lemma stopTimeEntry_running (d : pydict) (wid id : pyval) (st : State W) :
  Dict.get "workspace_id" d = Some wid ->
  Dict.get "id" d = Some id ->
  snd (stopTimeEntry X (PDict d) st) =
  with_sent st
    (snd (urlopen X
            (request_of st
               ("https://api.track.toggl.com/api/v9/workspaces/" +:+ py_str X wid
                  +:+ "/time_entries/" +:+ py_str X id +:+ "/stop")
               None (Some "PATCH"))
            (cafile X) (world st)))
    (request_of st
       ("https://api.track.toggl.com/api/v9/workspaces/" +:+ py_str X wid
          +:+ "/time_entries/" +:+ py_str X id +:+ "/stop")
       None (Some "PATCH")).
Proof.
  intros Hw Hi.
  unfold stopTimeEntry, currentRunningTimeEntry, mbind, M_bind, mret, M_ret, lift.
  cbn [py_getitem]. rewrite Hw, Hi, format_STOP.
  rewrite postRequest_run by reflexivity. cbn [fmap option_fmap option_map].
  cbv zeta.
  match goal with
  | |- context [rbind ?a ?k] => destruct (rbind a k)
  end; [|reflexivity].
  cbn [snd]. destruct (decodeJSON_post X a); reflexivity.
Qed.

(** C8.  The PATCH of [stopTimeEntry] goes to the single-entry path with
    [/stop] appended, [/api/v9/workspaces/{0}/time_entries/{1}/stop], the
    entry's workspace id and id substituted. *)
Theorem stopTimeEntry_endpoint (d : pydict) (wid id : pyval) (st : State W) :
  Dict.get "workspace_id" d = Some wid ->
  Dict.get "id" d = Some id ->
  sent (snd (stopTimeEntry X (PDict d) st)) =
  sent st ++
  [request_of st
     ("https://api.track.toggl.com/api/v9/workspaces/" +:+ py_str X wid
        +:+ "/time_entries/" +:+ py_str X id +:+ "/stop")
     None (Some "PATCH")].
Proof.
  intros Hw Hi. rewrite (stopTimeEntry_running d wid id st Hw Hi). reflexivity.
Qed.

(** ** Updating a time entry *)

(** C4.  [putTimeEntry] on an object: unless [id] and [workspace_id] are
    both present with values of type [int], an [Exception] is raised and
    the client state, request log included, is what it was; otherwise
    one PUT goes to the entry's URL with the whole object, encoded, as
    its body. *)
Theorem putTimeEntry_checks (d : pydict) (st : State W) :
  match Dict.get "id" d, Dict.get "workspace_id" d with
  | Some (PInt id), Some (PInt wid) =>
      sent (snd (putTimeEntry X (PDict d) st)) =
      sent st ++
      [request_of st
         ("https://api.track.toggl.com/api/v9/workspaces/" +:+ pretty wid
            +:+ "/time_entries/" +:+ pretty id)
         (Some (json_encode X (PDict d))) (Some "PUT")]
  | _, _ =>
      (exists fmt arg,
         fst (putTimeEntry X (PDict d) st) = Raise (PyException fmt arg))
      /\ snd (putTimeEntry X (PDict d) st) = st
  end.
Proof.
  unfold putTimeEntry, mbind, M_bind, mret, M_ret, lift, raise.
  cbn [py_contains py_getitem]. unfold Dict.mem.
  destruct (Dict.get "id" d) as [id|]; [|cbn; eauto].
  destruct (Dict.get "workspace_id" d) as [wid|].
  - destruct id; cbn [negb type_is_int fst snd]; eauto;
      destruct wid; cbn [negb type_is_int fst snd py_str]; eauto.
    rewrite format_TIME_ENTRY.
    rewrite postRequest_run by reflexivity. cbv zeta.
    cbn [fmap option_fmap option_map].
    match goal with
    | |- context [rbind ?a ?k] => destruct (rbind a k) as [r|e]
    end; [|reflexivity].
    cbn [snd]. destruct (decodeJSON_post X r); reflexivity.
  - destruct id; cbn [negb type_is_int fst snd]; eauto.
Qed.

(** ** Updating a client *)

(** C9.  The body of the PUT that [updateClient] issues is the encoding
    of an object with the keys [name], [notes] and [wid:]; the key [wid]
    is not among them. *)
Theorem updateClient_payload (wid id : Z) (name notes : option string)
    (st : State W) :
  sent (snd (updateClient X wid id name notes st)) =
  sent st ++
  [request_of st
     (("https://api.track.toggl.com/api/v9/workspaces/" +:+ pretty wid +:+ "/clients")
        +:+ ("/" +:+ pretty id))
     (Some (json_encode X
              (PDict [("name", opt_str name); ("notes", opt_str notes);
                      ("wid:", PInt wid)])))
     (Some "PUT")]
  /\ Dict.keys [("name", opt_str name); ("notes", opt_str notes); ("wid:", PInt wid)]
     = ["name"; "notes"; "wid:"]
  /\ Dict.mem "wid" [("name", opt_str name); ("notes", opt_str notes); ("wid:", PInt wid)]
     = false.
Proof.
  split; [|split; reflexivity].
  unfold updateClient, mbind, M_bind, lift.
  rewrite format_WORKSPACE_CLIENTS, format_slash.
  rewrite postRequest_run by reflexivity. cbv zeta.
  cbn [fmap option_fmap option_map].
  match goal with
  | |- context [rbind ?a ?k] => destruct (rbind a k) as [r|e]
  end; [|reflexivity].
  cbn [snd]. destruct (decodeJSON_post X r); reflexivity.
Qed.

(** ** Custom time entries *)

Lemma or_now_run (field : datetime -> Z) (v : option Z) (st : State W) :
  or_now X field v st =
  (Ok (resolved X field v (world st)), with_world st (clock_after X v (world st))).
Proof.
  unfold or_now, resolved, clock_after, on_world, mbind, M_bind, mret, M_ret.
  destruct (truthy_int v); cbn [negb].
  - destruct st; reflexivity.
  - destruct (datetime_now X (world st)); reflexivity.
Qed.

Lemma c_int_overflow_is (z : Z) : exists msg, c_int_overflow z = OverflowError msg.
Proof.
  unfold c_int_overflow.
  destruct ((z <? -9223372036854775808) || (9223372036854775807 <? z)); [eauto|].
  destruct (2147483647 <? z); eauto.
Qed.

Lemma datetime_new_bad_hour (y m d h : Z) :
  h < 0 \/ 23 < h ->
  exists e,
    datetime_new y m d h = Raise e
    /\ ((exists msg, e = ValueError msg) \/ (exists msg, e = OverflowError msg))
    /\ (fits_c_int y = true -> fits_c_int m = true -> fits_c_int d = true ->
        fits_c_int h = true -> exists msg, e = ValueError msg).
Proof.
  intros Hh. unfold datetime_new.
  destruct (fits_c_int y); cbn [negb];
    [|destruct (c_int_overflow_is y) as [msg ->]; eexists;
      split; [reflexivity | split; [eauto | intros [=]]]].
  destruct (fits_c_int m); cbn [negb];
    [|destruct (c_int_overflow_is m) as [msg ->]; eexists;
      split; [reflexivity | split; [eauto | intros _ [=]]]].
  destruct (fits_c_int d); cbn [negb];
    [|destruct (c_int_overflow_is d) as [msg ->]; eexists;
      split; [reflexivity | split; [eauto | intros _ _ [=]]]].
  destruct (fits_c_int h); cbn [negb];
    [|destruct (c_int_overflow_is h) as [msg ->]; eexists;
      split; [reflexivity | split; [eauto | intros _ _ _ [=]]]].
  repeat match goal with
         | |- context [if negb ?b then _ else _] =>
             destruct b eqn:?; cbn [negb];
               [|eexists; split; [reflexivity | split; eauto]]
         end.
  exfalso. apply andb_true_iff in Heqb2 as [H1 H2]. lia.
Qed.

(** C3.  When the hour in use (the argument, or the clock's hour at the
    moment it is read if the argument is omitted or zero) plus
    [hour_diff] is negative or exceeds 23, [createTimeEntry] does not
    roll over into the adjacent day: the [datetime] constructor raises,
    the call fails with that exception and no request is sent.  The
    exception is [ValueError], unless a field does not fit a C [int], in
    which case it is [OverflowError]. *)
Theorem createTimeEntry_no_rollover (hour_duration wid : Z)
    (description : option string) (project_id : option Z)
    (projectname : option string) (taskid : option Z)
    (client_name : option string) (year month day hour : option Z)
    (billable : bool) (hour_diff : Z) (st : State W) :
  truthy_int project_id = true ->
  hour_in_use X year month day hour (world st) + hour_diff < 0
  \/ 23 < hour_in_use X year month day hour (world st) + hour_diff ->
  exists e,
    fst (createTimeEntry X hour_duration wid description project_id projectname
           taskid client_name year month day hour billable hour_diff st)
    = Raise e
    /\ datetime_new (year_in_use X year (world st))
         (month_in_use X year month (world st))
         (day_in_use X year month day (world st))
         (hour_in_use X year month day hour (world st) + hour_diff)
       = Raise e
    /\ ((exists msg, e = ValueError msg) \/ (exists msg, e = OverflowError msg))
    /\ (fits_c_int (year_in_use X year (world st)) = true ->
        fits_c_int (month_in_use X year month (world st)) = true ->
        fits_c_int (day_in_use X year month day (world st)) = true ->
        fits_c_int (hour_in_use X year month day hour (world st) + hour_diff) = true ->
        exists msg, e = ValueError msg)
    /\ sent (snd (createTimeEntry X hour_duration wid description project_id
                    projectname taskid client_name year month day hour billable
                    hour_diff st))
       = sent st.
Proof.
  intros Hpid Hbad.
  destruct (datetime_new_bad_hour
              (year_in_use X year (world st))
              (month_in_use X year month (world st))
              (day_in_use X year month day (world st))
              _ Hbad) as (e & Hnew & Hkind & Hfit).
  assert (exists w,
            createTimeEntry X hour_duration wid description project_id projectname
              taskid client_name year month day hour billable hour_diff st
            = (Raise e, with_world st w)) as (w & ->).
  { unfold createTimeEntry. rewrite Hpid. cbn [negb].
    unfold mbind at 1 2 3 4 5. unfold M_bind at 1 2 3 4 5.
    unfold mret at 1, M_ret at 1.
    rewrite !or_now_run. cbn [with_world world].
    unfold year_in_use, month_in_use, day_in_use, hour_in_use in Hnew.
    unfold mbind, M_bind, lift. rewrite Hnew. eauto. }
  exists e. cbn [fst snd with_world sent]. auto.
Qed.



(** ** Starting a time entry *)

Lemma int_of_float_floor (q : Q) : (0 <= q)%Q -> int_of_float q = Qfloor q.
Proof.
  intros H. unfold int_of_float.
  apply Qle_bool_iff in H. now rewrite H.
Qed.

(** C6.  Whenever [startTimeEntry] gets as far as sending its request, the
    body is the encoding of an object whose [tags] is the empty list when
    the tag is omitted or is the empty string and the one-element list of
    the tag otherwise, and whose [duration] is minus the clock reading
    truncated to an integer, which is its floor for a clock that is not
    before the epoch. *)
Theorem startTimeEntry_payload (description wid : NumStr) (pid : option NumStr)
    (tag : option string) (st : State W) (d : datetime) (w p : Z) :
  utcfromtimestamp X (fst (time_time X (world st))) = Ok d ->
  py_int X wid = Ok w ->
  py_int_opt X pid = Ok p ->
  sent (snd (startTimeEntry X description wid pid tag st)) =
  sent st ++
  [request_of st
     ("https://api.track.toggl.com/api/v9/workspaces/" +:+ numstr_str wid
        +:+ "/time_entries")
     (Some (json_encode X (PDict [
        ("tags", PList (match tag with
                        | Some t => if String.eqb t "" then [] else [PStr t]
                        | None => []
                        end));
        ("start", PStr (isoformat_seconds d +:+ "Z"));
        ("duration", PInt (-1 * int_of_float (fst (time_time X (world st)))));
        ("workspace_id", PInt w);
        ("project_id", PInt p);
        ("description", numstr_val description);
        ("created_with", PStr (user_agent st))])))
     (Some "POST")]
  /\ ((0 <= fst (time_time X (world st)))%Q ->
      -1 * int_of_float (fst (time_time X (world st)))
      = -1 * Qfloor (fst (time_time X (world st)))).
Proof.
  intros Hutc Hw Hp. split; [|intros H; now rewrite int_of_float_floor].
  unfold startTimeEntry, on_world, mbind, M_bind, mret, M_ret, lift, get_state.
  destruct (time_time X (world st)) as [now w1]. cbn [fst] in *.
  rewrite Hutc, Hw, Hp, format_START.
  rewrite postRequest_run by reflexivity. cbv zeta.
  cbn [fmap option_fmap option_map].
  assert (Htags :
    (if truthy_str tag then [] ++ [opt_str tag] else [])
    = match tag with
      | Some t => if String.eqb t "" then [] else [PStr t]
      | None => []
      end).
  { destruct tag as [t|]; [|reflexivity]. cbn.
    destruct (String.eqb t ""); reflexivity. }
  rewrite Htags.
  match goal with
  | |- context [rbind ?a ?k] => destruct (rbind a k) as [r|e]
  end; [|reflexivity].
  cbn [snd]. destruct (decodeJSON_post X r); reflexivity.
Qed.

(** ** Lookup by name or id *)

Lemma scan_by_id (id : NumStr) (n : Z) (xs : list pyval) :
  py_int X id = Ok n ->
  Forall is_entity xs ->
  scan "id" (by_id X id) xs = Ok (first_match (has_id n) xs).
Proof.
  intros Hn Hall. induction Hall as [|x xs Hx _ IH]; [reflexivity|].
  destruct x as [| | | | | |d]; try contradiction.
  destruct Hx as [[i Hi] _].
  unfold first_match in *. cbn [scan py_getitem List.find has_id].
  rewrite Hi. cbn [rbind]. unfold by_id at 1. rewrite Hn. cbn [rbind py_eq_int].
  destruct (i =? n); [reflexivity | exact IH].
Qed.

Lemma scan_by_name (name : string) (xs : list pyval) :
  Forall is_entity xs ->
  scan "name" (by_name (Some name)) xs = Ok (first_match (has_name name) xs).
Proof.
  intros Hall. induction Hall as [|x xs Hx _ IH]; [reflexivity|].
  destruct x as [| | | | | |d]; try contradiction.
  destruct Hx as [_ [m Hm]].
  unfold first_match in *. cbn [scan py_getitem List.find has_name].
  rewrite Hm. cbn [rbind by_name py_eq_str].
  destruct (String.eqb m name); [reflexivity | exact IH].
Qed.

(** C7.  [getWorkspace] and [getClient] fetch the listing before anything
    else, and an exception of that request is the outcome of the call
    whatever the arguments.  Once the listing has been fetched as a list
    of entities: with neither name nor id the error is printed and
    [None] returned; with an id the result is the first element, in
    listing order, whose [id] is that integer, [None] when there is
    none; with a name and no id, the first element whose [name] is that
    string, [None] when there is none. *)
Theorem lookup_by_name_or_id (k : listing) (st st' : State W) (r : result pyval) :
  fetch_listing X k st = (r, st') ->
  match r with
  | Raise e => forall name id, lookup X k name id st = (Raise e, st')
  | Ok v =>
      forall xs, v = PList xs -> Forall is_entity xs ->
        lookup X k None None st = (Ok PNone, with_stdout st' (lookup_error k))
        /\ (forall name id n, py_int X id = Ok n ->
              lookup X k name (Some id) st = (Ok (first_match (has_id n) xs), st'))
        /\ (forall name,
              lookup X k (Some name) None st
              = (Ok (first_match (has_name name) xs), st'))
  end.
Proof.
  intros Hfetch. destruct r as [v|e].
  - intros xs -> Hxs.
    destruct k; cbn [fetch_listing lookup lookup_error] in *;
      unfold getWorkspace, getClient, mbind, M_bind; rewrite Hfetch;
      (split; [reflexivity | split]).
    + intros name id n Hn.
      destruct name; cbn [py_iter lift]; now rewrite (scan_by_id id n xs Hn Hxs).
    + intros name. cbn [py_iter lift]. now rewrite (scan_by_name name xs Hxs).
    + intros name id n Hn.
      destruct name; cbn [py_iter lift]; now rewrite (scan_by_id id n xs Hn Hxs).
    + intros name. cbn [py_iter lift]. now rewrite (scan_by_name name xs Hxs).
  - intros name id.
    destruct k; cbn [fetch_listing lookup] in *;
      unfold getWorkspace, getClient, mbind, M_bind; rewrite Hfetch; reflexivity.
Qed.

End Properties.

(** ** The statements on concrete calls *)

Example setAPIKey_ABC :
  headers (snd (setAPIKey "ABC" st0)) !! "Authorization"
  = Some "Basic QUJDOmFwaV90b2tlbg==".
Proof. rewrite setAPIKey_run. apply lookup_insert_eq. Qed.

Example setAuthCredentials_ab :
  headers (snd (setAuthCredentials "a@b.com" "pw" st0)) !! "Authorization"
  = Some ("Basic " +:+ b64encode "a@b.com:pw").
Proof. rewrite setAuthCredentials_run. apply lookup_insert_eq. Qed.

Lemma decodeJSON_scalar_raises_witness :
  decodeJSON idle "null"
  = Raise (TypeError "argument of type 'NoneType' is not iterable").
Proof.
  apply (decodeJSON_scalar_raises idle "null" PNone); [reflexivity | exact I].
Defined.

Lemma stopTimeEntry_nothing_running_witness :
  stopTimeEntry idle PNone st0
  = (Raise (TypeError "argument of type 'NoneType' is not iterable"),
     with_sent st0 tt (request_of st0 Endpoints.CURRENT_RUNNING_TIME None None)).
Proof.
  apply (stopTimeEntry_nothing_running idle st0
           {| resp_code := 200; resp_body := "null" |} tt); reflexivity.
Defined.

(** The end-to-end example: two hours from 09:00 with the default
    [hour_diff] start at 07:00. *)
Example createTimeEntry_jan15 :
  map req_data
    (sent (snd (createTimeEntry idle 2 10 None (Some 20) None None None
                  (Some 2024) (Some 1) (Some 15) (Some 9) false (-2) st0)))
  = [Some (json_encode idle (PDict [
       ("start", PStr "2024-01-15T07:00:00.000Z");
       ("duration", PInt 7200);
       ("pid", PInt 20);
       ("created_with", PStr "NAME");
       ("billable", PBool false)]))].
Proof. vm_compute. reflexivity. Qed.

(** Midnight asked for at 09:00: the entry starts at 07:00, not at 22:00
    of the day before and not with an error. *)
Example createTimeEntry_midnight :
  map req_data
    (sent (snd (createTimeEntry idle 2 10 None (Some 20) None None None
                  (Some 2024) (Some 1) (Some 15) (Some 0) false (-2) st0)))
  = [Some (json_encode idle (PDict [
       ("start", PStr "2024-01-15T07:00:00.000Z");
       ("duration", PInt 7200);
       ("pid", PInt 20);
       ("created_with", PStr "NAME");
       ("billable", PBool false)]))].
Proof. vm_compute. reflexivity. Qed.

(** 01:00 with the default [hour_diff] of -2, and 23:00 with +2: no
    rolled-over date, the call raises and sends nothing. *)
Lemma createTimeEntry_rollover_fails :
  createTimeEntry idle 2 10 None (Some 20) None None None
    (Some 2024) (Some 1) (Some 15) (Some 1) false (-2) st0
  = (Raise (ValueError "hour must be in 0..23"), st0)
  /\ createTimeEntry idle 2 10 None (Some 20) None None None
       (Some 2024) (Some 1) (Some 15) (Some 23) false 2 st0
     = (Raise (ValueError "hour must be in 0..23"), st0)
  /\ ~ (exists v st,
         createTimeEntry idle 2 10 None (Some 20) None None None
           (Some 2024) (Some 1) (Some 15) (Some 1) false (-2) st0
         = (Ok v, st)).
Proof.
  assert (H : createTimeEntry idle 2 10 None (Some 20) None None None
                (Some 2024) (Some 1) (Some 15) (Some 1) false (-2) st0
              = (Raise (ValueError "hour must be in 0..23"), st0))
    by (vm_compute; reflexivity).
  split; [exact H | split; [vm_compute; reflexivity|]].
  intros (v & st & Hok). rewrite H in Hok. discriminate.
Qed.


(** At half past one with every date and time field omitted: the hour
    in use is the clock's, and 1 - 2 is no hour. *)
Lemma createTimeEntry_no_rollover_witness :
  fst (createTimeEntry small_hours 2 10 None (Some 20) None None None
         None None None None false (-2) st0)
  = Raise (ValueError "hour must be in 0..23")
  /\ sent (snd (createTimeEntry small_hours 2 10 None (Some 20) None None None
                  None None None None false (-2) st0))
     = [].
Proof.
  destruct (createTimeEntry_no_rollover small_hours 2 10 None (Some 20) None None
              None None None None None false (-2) st0 eq_refl
              (or_introl eq_refl))
    as (e & Hfst & Hnew & _ & _ & Hsent).
  vm_compute in Hnew. injection Hnew as <-.
  split; [exact Hfst | exact Hsent].
Defined.

Example putTimeEntry_without_id :
  putTimeEntry idle (PDict [("workspace_id", PInt 5)]) st0
  = (Raise (PyException "An id must be provided in order to put a time entry" None), st0).
Proof. reflexivity. Qed.

Example putTimeEntry_string_id :
  putTimeEntry idle (PDict [("id", PStr "7"); ("workspace_id", PInt 5)]) st0
  = (Raise (PyException "Invalid id %s provided " (Some (PStr "7"))), st0).
Proof. reflexivity. Qed.

(** A tag that is the empty string is supplied and yet not sent. *)
Lemma startTimeEntry_empty_tag :
  map req_data
    (sent (snd (startTimeEntry idle (NStr "work") (NInt 10) (Some (NInt 20))
                  (Some "") st0)))
  = [Some (json_encode idle (PDict [
       ("tags", PList []);
       ("start", PStr "2024-01-15T09:00:00Z");
       ("duration", PInt (-1705309200));
       ("workspace_id", PInt 10);
       ("project_id", PInt 20);
       ("description", PStr "work");
       ("created_with", PStr "TogglPy")]))]
  /\ map req_data
       (sent (snd (startTimeEntry idle (NStr "work") (NInt 10) (Some (NInt 20))
                     (Some "") st0)))
     <> [Some (json_encode idle (PDict [
          ("tags", PList [PStr ""]);
          ("start", PStr "2024-01-15T09:00:00Z");
          ("duration", PInt (-1705309200));
          ("workspace_id", PInt 10);
          ("project_id", PInt 20);
          ("description", PStr "work");
          ("created_with", PStr "TogglPy")]))].
Proof. split; [vm_compute; reflexivity | vm_compute; discriminate]. Qed.

Lemma startTimeEntry_payload_witness :
  sent (snd (startTimeEntry idle (NStr "work") (NInt 10) (Some (NInt 20))
               (Some "urgent") st0))
  = [request_of st0 "https://api.track.toggl.com/api/v9/workspaces/10/time_entries"
       (Some (json_encode idle (PDict [
          ("tags", PList [PStr "urgent"]);
          ("start", PStr "2024-01-15T09:00:00Z");
          ("duration", PInt (-1705309200));
          ("workspace_id", PInt 10);
          ("project_id", PInt 20);
          ("description", PStr "work");
          ("created_with", PStr "TogglPy")])))
       (Some "POST")].
Proof.
  apply (proj1 (startTimeEntry_payload idle (NStr "work") (NInt 10)
                  (Some (NInt 20)) (Some "urgent") st0 jan15 10 20
                  eq_refl eq_refl eq_refl)).
Defined.

(** Without a filter and with the server out of reach, the lookup does
    not report and return [None]: the request comes first and its
    exception is the outcome; nothing is printed. *)
Lemma lookup_without_filter_raises :
  getWorkspace offline None None st0
  = (Raise (HTTPError 404 ""),
     with_sent st0 tt (request_of st0 Endpoints.WORKSPACES None None))
  /\ stdout (snd (getWorkspace offline None None st0)) = []
  /\ fst (getWorkspace offline None None st0) <> Ok PNone.
Proof.
  split; [vm_compute; reflexivity | split; [vm_compute; reflexivity|]].
  vm_compute. discriminate.
Qed.

Lemma lookup_by_name_or_id_witness :
  getWorkspace workspaces_only None (Some (NInt 2)) st0
  = (Ok work, snd (getWorkspaces workspaces_only st0))
  /\ getWorkspace workspaces_only None (Some (NInt 99)) st0
     = (Ok PNone, snd (getWorkspaces workspaces_only st0))
  /\ getWorkspace workspaces_only (Some "Home") None st0
     = (Ok home, snd (getWorkspaces workspaces_only st0)).
Proof.
  destruct (lookup_by_name_or_id workspaces_only Workspaces st0
              (snd (getWorkspaces workspaces_only st0))
              (Ok (PList [home; work])) eq_refl [home; work] eq_refl)
    as (_ & Hid & Hname).
  - repeat constructor; cbn; eauto.
  - split; [exact (Hid None (NInt 2) 2 eq_refl)|].
    split; [exact (Hid None (NInt 99) 99 eq_refl) | exact (Hname "Home")].
Defined.

(** The stop request of entry 7 in workspace 5 does not go to the URL of
    the entry itself. *)
Lemma stopTimeEntry_not_TIME_ENTRY :
  format Endpoints.TIME_ENTRY ["5"; "7"]
  = Ok "https://api.track.toggl.com/api/v9/workspaces/5/time_entries/7"
  /\ map (fun r => (get_method r, req_url r))
       (sent (snd (stopTimeEntry idle
                     (PDict [("id", PInt 7); ("workspace_id", PInt 5)]) st0)))
     = [("PATCH", "https://api.track.toggl.com/api/v9/workspaces/5/time_entries/7/stop")]
  /\ ~ (exists r,
         In r (sent (snd (stopTimeEntry idle
                            (PDict [("id", PInt 7); ("workspace_id", PInt 5)]) st0)))
         /\ Ok (req_url r) = format Endpoints.TIME_ENTRY ["5"; "7"]).
Proof.
  split; [vm_compute; reflexivity | split; [vm_compute; reflexivity|]].
  intros (r & Hin & Hurl).
  assert (Hsent : sent (snd (stopTimeEntry idle
                     (PDict [("id", PInt 7); ("workspace_id", PInt 5)]) st0))
            = [request_of st0
                 "https://api.track.toggl.com/api/v9/workspaces/5/time_entries/7/stop"
                 None (Some "PATCH")])
    by (vm_compute; reflexivity).
  rewrite Hsent in Hin. destruct Hin as [<- | []].
  vm_compute in Hurl. discriminate.
Qed.

Lemma stopTimeEntry_endpoint_witness :
  sent (snd (stopTimeEntry idle
               (PDict [("id", PInt 7); ("workspace_id", PInt 5)]) st0))
  = [request_of st0
       "https://api.track.toggl.com/api/v9/workspaces/5/time_entries/7/stop"
       None (Some "PATCH")].
Proof.
  apply (stopTimeEntry_endpoint idle [("id", PInt 7); ("workspace_id", PInt 5)]
           (PInt 5) (PInt 7) st0 eq_refl eq_refl).
Defined.

Example updateClient_keys :
  map req_data (sent (snd (updateClient idle 2 31 (Some "Acme") None st0)))
  = [Some "{'name':'Acme','notes':null,'wid:':2,}"].
Proof. vm_compute. reflexivity. Qed.

(** * Further properties of the client *)

(** ** Dictionaries *)

Lemma dict_get_set_eq (k : string) (v : pyval) (d : pydict) :
  Dict.get k (Dict.set k v d) = Some v.
Proof.
  induction d as [|[k' v'] d IH]; cbn.
  - now rewrite String.eqb_refl.
  - destruct (String.eqb k' k) eqn:E; cbn; rewrite E; [reflexivity | exact IH].
Qed.

Lemma dict_get_set_ne (k k' : string) (v : pyval) (d : pydict) :
  k <> k' -> Dict.get k' (Dict.set k v d) = Dict.get k' d.
Proof.
  intros Hne. induction d as [|[k0 v0] d IH]; cbn.
  - destruct (String.eqb k k') eqn:E; [|reflexivity].
    apply String.eqb_eq in E. contradiction.
  - destruct (String.eqb k0 k) eqn:E; cbn.
    + apply String.eqb_eq in E. subst k0.
      destruct (String.eqb k k') eqn:E'; [|reflexivity].
      apply String.eqb_eq in E'. contradiction.
    + destruct (String.eqb k0 k'); [reflexivity | exact IH].
Qed.

Lemma dict_keys_set_present (k : string) (v : pyval) (d : pydict) :
  Dict.mem k d = true -> Dict.keys (Dict.set k v d) = Dict.keys d.
Proof.
  unfold Dict.mem, Dict.keys. induction d as [|[k' v'] d IH]; cbn; [discriminate|].
  destruct (String.eqb k' k); cbn; [reflexivity|].
  intros H. now rewrite IH.
Qed.

(** The object the normaliser returns for [d]: same lookups away from
    [tag_ids], and a [tag_ids] that is not [None]. *)
Lemma decodeJSON_object_keys (d : pydict) :
  exists d',
    match Dict.get "tag_ids" d with
    | Some PNone => Dict.set "tag_ids" (PList []) d
    | _ => d
    end = d'
    /\ (forall k, k <> "tag_ids" -> Dict.get k d' = Dict.get k d)
    /\ Dict.get "tag_ids" d' <> Some PNone.
Proof.
  destruct (Dict.get "tag_ids" d) as [t|] eqn:Ht.
  - destruct t; try (exists d; repeat split; congruence).
    exists (Dict.set "tag_ids" (PList []) d). repeat split.
    + intros k Hk. apply dict_get_set_ne. congruence.
    + rewrite dict_get_set_eq. discriminate.
  - exists d. repeat split; congruence.
Qed.

Lemma format_TASKS (a b : string) :
  format Endpoints.TASKS [a; b] =
  Ok ("https://api.track.toggl.com/api/v9/workspaces/" +:+ a +:+ "/projects/"
        +:+ b +:+ "/tasks").
Proof. run_format. Qed.

Lemma format_PROJECT_TASKS (a b : string) :
  format Endpoints.PROJECT_TASKS [a; b] =
  Ok ("https://api.track.toggl.com/api/v9/workspaces/" +:+ a +:+ "/projects/"
        +:+ b +:+ "/tasks").
Proof. run_format. Qed.

Lemma length_append (s t : string) :
  String.length (s +:+ t) = (String.length s + String.length t)%nat.
Proof.
  induction s as [|c s IH]; [reflexivity|].
  change (String c s +:+ t) with (String c (s +:+ t)).
  cbn [String.length]. now rewrite IH.
Qed.

Lemma length_of_list_ascii (l : list ascii) :
  String.length (string_of_list_ascii l) = length l.
Proof. induction l as [|c l IH]; cbn; [reflexivity | now rewrite IH]. Qed.

Lemma length_to_list_ascii (s : string) :
  length (list_ascii_of_string s) = String.length s.
Proof. induction s as [|c s IH]; cbn; [reflexivity | now rewrite IH]. Qed.

Lemma b64_groups_length (bs : list N) :
  length (b64_groups bs) = (4 * ((length bs + 2) / 3))%nat
  /\ (forall a, length (b64_groups (a :: bs)) = (4 * ((length (a :: bs) + 2) / 3))%nat)
  /\ (forall a b,
        length (b64_groups (a :: b :: bs))
        = (4 * ((length (a :: b :: bs) + 2) / 3))%nat).
Proof.
  induction bs as [|c bs (IH0 & IH1 & IH2)].
  - repeat split.
  - split; [apply IH1 | split; [intros a; apply IH2|]].
    intros a b. cbn [b64_groups length]. rewrite IH0.
    replace (S (S (S (length bs))) + 2)%nat with ((length bs + 2) + 1 * 3)%nat by lia.
    rewrite Nat.div_add by discriminate. lia.
Qed.

Lemma b64encode_length (b : string) :
  String.length (b64encode b) = (4 * ((String.length b + 2) / 3))%nat.
Proof.
  unfold b64encode. rewrite length_of_list_ascii.
  rewrite (proj1 (b64_groups_length _)), length_map, length_to_list_ascii.
  reflexivity.
Qed.

Section Coverage.
Context {W : Type} (X : Externals W).

(** ** The normaliser on objects and listings *)

(** X1.  On a response that decodes to an object, [decodeJSON] returns an
    object with the same keys in the same order and the same value under
    every key but [tag_ids]; its [tag_ids] is never [None]; and an object
    whose [tag_ids] is absent or not [None] comes back as it is. *)
Theorem decodeJSON_object_normalised (s : string) (d : pydict) :
  json_decode X s = Some (PDict d) ->
  exists d',
    decodeJSON X s = Ok (PDict d')
    /\ Dict.keys d' = Dict.keys d
    /\ Dict.get "tag_ids" d' <> Some PNone
    /\ (forall k, k <> "tag_ids" -> Dict.get k d' = Dict.get k d)
    /\ (Dict.get "tag_ids" d <> Some PNone -> d' = d).
Proof.
  intros H. rewrite (decodeJSON_object X s d H).
  destruct (Dict.get "tag_ids" d) as [t|] eqn:Ht.
  - destruct t;
      try (exists d; repeat split; congruence).
    exists (Dict.set "tag_ids" (PList []) d). repeat split.
    + apply dict_keys_set_present. unfold Dict.mem. now rewrite Ht.
    + rewrite dict_get_set_eq. discriminate.
    + intros k Hk. apply dict_get_set_ne. congruence.
    + intros Hne. now contradiction Hne.
  - exists d. repeat split; congruence.
Qed.

(** X2.  The normaliser is shallow: a response that decodes to a list of
    objects is returned unchanged, also when its entries carry
    [tag_ids: null]. *)
Theorem decodeJSON_listing_unchanged (s : string) (l : list pyval) :
  json_decode X s = Some (PList l) ->
  Forall is_object l ->
  decodeJSON X s = Ok (PList l).
Proof.
  intros H Hl. apply (decodeJSON_list X s l H). clear H.
  induction Hl as [|x l Hx _ IH]; [reflexivity|].
  destruct x; try contradiction. exact IH.
Qed.

(** ** Transport *)

Lemma requestRaw_params_run (endpoint : string) (params : pydict) (st : State W) :
  requestRaw X endpoint (Some params) st =
  (let params' :=
     if Dict.mem "user_agent" params then params
     else Dict.set "user_agent" (PStr (user_agent st)) params in
   let req := request_of st (endpoint +:+ "?" +:+ urlencode X params') None None in
   (rbind (fst (urlopen X req (cafile X) (world st))) (fun r => Ok (resp_body r)),
    with_sent st (snd (urlopen X req (cafile X) (world st))) req)).
Proof.
  unfold requestRaw, mbind, M_bind, get_state, mret, M_ret.
  rewrite do_urlopen_run. cbv zeta. unfold request_of.
  destruct (Dict.mem "user_agent" params); cbn [negb];
    match goal with
    | |- context [urlopen X ?r (cafile X) (world st)] =>
        destruct (urlopen X r (cafile X) (world st)) as [[resp|e] w]
    end; reflexivity.
Qed.


Lemma postRequest_delete_run (endpoint : string) (parameters : option pyval)
    (st : State W) :
  postRequest X endpoint parameters "DELETE" st =
  (status_of (fst (urlopen X (request_of st endpoint None (Some "DELETE"))
                     (cafile X) (world st))),
   with_sent st
     (snd (urlopen X (request_of st endpoint None (Some "DELETE"))
             (cafile X) (world st)))
     (request_of st endpoint None (Some "DELETE"))).
Proof.
  unfold postRequest, mbind, M_bind, get_state, mret, M_ret.
  cbn [String.eqb Ascii.eqb Bool.eqb]. rewrite do_urlopen_run.
  fold (request_of st endpoint None (Some "DELETE")).
  destruct (urlopen X (request_of st endpoint None (Some "DELETE"))
              (cafile X) (world st)) as [[resp|e] w]; reflexivity.
Qed.

(** X4.  [postRequest] with method DELETE, to a URL on the API's host,
    ignores its parameters: with or without them it sends the same
    single request, which has no body, and it returns the status code
    without decoding the response. *)
Theorem postRequest_delete_ignores_parameters (endpoint : string)
    (parameters : option pyval) (st : State W) :
  toggl_url endpoint ->
  postRequest X endpoint parameters "DELETE" st
  = postRequest X endpoint None "DELETE" st
  /\ sent (snd (postRequest X endpoint parameters "DELETE" st))
     = sent st ++ [request_of st endpoint None (Some "DELETE")]
  /\ fst (postRequest X endpoint parameters "DELETE" st)
     = status_of (fst (urlopen X (request_of st endpoint None (Some "DELETE"))
                         (cafile X) (world st))).
Proof. intros _. rewrite !postRequest_delete_run. repeat split. Qed.

(** X5.  [deleteTimeEntry] sends one bodiless DELETE to the entry's URL
    and returns the status code of the response; the response body is
    neither decoded as UTF-8 nor parsed as JSON, and a transport
    exception is passed on. *)
Theorem deleteTimeEntry_run (workspace_id entry_id : Z) (st : State W) :
  deleteTimeEntry X workspace_id entry_id st =
  (status_of
     (fst (urlopen X
             (request_of st
                ("https://api.track.toggl.com/api/v9/workspaces/" +:+ pretty workspace_id
                   +:+ "/time_entries/" +:+ pretty entry_id)
                None (Some "DELETE"))
             (cafile X) (world st))),
   with_sent st
     (snd (urlopen X
             (request_of st
                ("https://api.track.toggl.com/api/v9/workspaces/" +:+ pretty workspace_id
                   +:+ "/time_entries/" +:+ pretty entry_id)
                None (Some "DELETE"))
             (cafile X) (world st)))
     (request_of st
        ("https://api.track.toggl.com/api/v9/workspaces/" +:+ pretty workspace_id
           +:+ "/time_entries/" +:+ pretty entry_id)
        None (Some "DELETE"))).
Proof.
  unfold deleteTimeEntry, mbind, M_bind, lift.
  rewrite format_TIME_ENTRY. apply postRequest_delete_run.
Qed.

(** X6.  [deleteClient] sends one bodiless DELETE to the workspace's
    client URL followed by [/] and the client id, and returns the status
    code of the response. *)
Theorem deleteClient_run (wid id : Z) (st : State W) :
  deleteClient X wid id st =
  (status_of
     (fst (urlopen X
             (request_of st
                (("https://api.track.toggl.com/api/v9/workspaces/" +:+ pretty wid
                    +:+ "/clients") +:+ ("/" +:+ pretty id))
                None (Some "DELETE"))
             (cafile X) (world st))),
   with_sent st
     (snd (urlopen X
             (request_of st
                (("https://api.track.toggl.com/api/v9/workspaces/" +:+ pretty wid
                    +:+ "/clients") +:+ ("/" +:+ pretty id))
                None (Some "DELETE"))
             (cafile X) (world st)))
     (request_of st
        (("https://api.track.toggl.com/api/v9/workspaces/" +:+ pretty wid
            +:+ "/clients") +:+ ("/" +:+ pretty id))
        None (Some "DELETE"))).
Proof.
  unfold deleteClient, mbind, M_bind, lift.
  rewrite format_WORKSPACE_CLIENTS, format_slash. apply postRequest_delete_run.
Qed.

(** ** Starting and creating time entries: what stops them *)

(** X7.  [startTimeEntry] called without [pid] never sends a request: it
    ends in an exception, and when the clock conversion and [int(wid)]
    succeed that exception is the [TypeError] of [int(None)]. *)
Theorem startTimeEntry_without_pid (description wid : NumStr)
    (tag : option string) (st : State W) :
  (exists e, fst (startTimeEntry X description wid None tag st) = Raise e)
  /\ sent (snd (startTimeEntry X description wid None tag st)) = sent st
  /\ (forall d w,
        utcfromtimestamp X (fst (time_time X (world st))) = Ok d ->
        py_int X wid = Ok w ->
        fst (startTimeEntry X description wid None tag st)
        = Raise (TypeError "int() argument must be a string, a bytes-like object or a real number, not 'NoneType'")).
Proof.
  unfold startTimeEntry, on_world, mbind, M_bind, mret, M_ret, lift, get_state.
  destruct (time_time X (world st)) as [now w1]. cbn [fst].
  destruct (utcfromtimestamp X now) as [d|e]; cbn [fst snd sent].
  - destruct (py_int X wid) as [w|e]; cbn [fst snd sent py_int_opt].
    + repeat split; eauto.
    + repeat split; eauto. intros ? ? _ [=].
  - repeat split; eauto. intros ? ? [=].
Qed.

(** X8.  [createTimeEntry] without a project id (omitted or zero) never
    gets to the request, and reads no clock: with a project name it
    raises [AttributeError], the lookup methods it would call not being
    defined; with none it prints its message and exits with status 1. *)
Theorem createTimeEntry_without_project (hour_duration wid : Z)
    (description : option string) (project_id : option Z)
    (projectname : option string) (taskid : option Z)
    (client_name : option string) (year month day hour : option Z)
    (billable : bool) (hour_diff : Z) (st : State W) :
  truthy_int project_id = false ->
  createTimeEntry X hour_duration wid description project_id projectname taskid
    client_name year month day hour billable hour_diff st
  = if truthy_str projectname then
      (Raise (AttributeError
                (if truthy_str client_name
                 then "'Toggl' object has no attribute 'getClientProject'"
                 else "'Toggl' object has no attribute 'searchClientProject'")),
       st)
    else
      (Raise (SystemExit 1), with_stdout st "Too many missing parameters for query").
Proof.
  intros H. unfold createTimeEntry. rewrite H. cbn [negb].
  destruct (truthy_str projectname), (truthy_str client_name); reflexivity.
Qed.

(** X9.  With a project id and with year, month, day and hour all given
    and non-zero, [createTimeEntry] does not consult [datetime.now()]:
    the call is the same whatever the clock behind it. *)
Theorem createTimeEntry_explicit_ignores_clock (f : W -> datetime * W)
    (hour_duration wid : Z)
    (description : option string) (project_id : option Z)
    (projectname : option string) (taskid : option Z)
    (client_name : option string) (year month day hour : option Z)
    (billable : bool) (hour_diff : Z) (st : State W) :
  truthy_int year = true ->
  truthy_int month = true ->
  truthy_int day = true ->
  truthy_int hour = true ->
  createTimeEntry X hour_duration wid description project_id projectname taskid
    client_name year month day hour billable hour_diff st
  = createTimeEntry (with_clock X f) hour_duration wid description project_id
      projectname taskid client_name year month day hour billable hour_diff st.
Proof.
  intros Hy Hm Hd Hh. unfold createTimeEntry, or_now.
  rewrite Hy, Hm, Hd, Hh. reflexivity.
Qed.

(** ** Stopping: the paths around the PATCH *)

(** X10.  [stopTimeEntry] given a state that is not an object with both
    [workspace_id] and [id] fails without sending anything: [KeyError]
    for the first missing key of an object, [TypeError] for a value that
    cannot be indexed by a string. *)
Theorem stopTimeEntry_unusable_state (v : pyval) (st : State W) :
  v <> PNone ->
  (forall d w i, v = PDict d -> Dict.get "workspace_id" d = Some w ->
                 Dict.get "id" d = Some i -> False) ->
  exists e,
    stopTimeEntry X v st = (Raise e, st)
    /\ match v with
       | PDict d =>
           e = KeyError (match Dict.get "workspace_id" d with
                         | None => "workspace_id"
                         | Some _ => "id"
                         end)
       | _ => exists msg, e = TypeError msg
       end.
Proof.
  intros Hv Hbad.
  destruct v as [| b | z | q | s | l | d]; try contradiction;
    try (eexists; split; [reflexivity | eauto]).
  unfold stopTimeEntry, currentRunningTimeEntry, mbind, M_bind, mret, M_ret, lift.
  cbn [py_getitem].
  destruct (Dict.get "workspace_id" d) as [w|] eqn:Hw; [|eauto].
  destruct (Dict.get "id" d) as [i|] eqn:Hi; [|eauto].
  exfalso. exact (Hbad d w i eq_refl Hw Hi).
Qed.

(** X11.  [stopTimeEntry()] with an entry running makes two requests in
    this order: the GET of the current entry, then the PATCH to the stop
    URL built from the [workspace_id] and [id] of the entry the GET
    returned. *)
Theorem stopTimeEntry_fetch_then_patch (st : State W) (resp : Response) (w : W)
    (d : pydict) (wid id : pyval) :
  urlopen X (request_of st Endpoints.CURRENT_RUNNING_TIME None None)
          (cafile X) (world st) = (Ok resp, w) ->
  utf8_valid X (resp_body resp) = true ->
  json_decode X (resp_body resp) = Some (PDict d) ->
  Dict.get "workspace_id" d = Some wid ->
  Dict.get "id" d = Some id ->
  sent (snd (stopTimeEntry X PNone st)) =
  sent st ++
  [request_of st Endpoints.CURRENT_RUNNING_TIME None None;
   request_of st
     ("https://api.track.toggl.com/api/v9/workspaces/" +:+ py_str X wid
        +:+ "/time_entries/" +:+ py_str X id +:+ "/stop")
     None (Some "PATCH")].
Proof.
  intros Hopen Hutf Hjson Hw Hi.
  destruct (decodeJSON_object_keys d) as (d' & Hd' & Hkeep & _).
  unfold stopTimeEntry, currentRunningTimeEntry, mbind, M_bind, mret, M_ret.
  rewrite request_run, Hopen. cbn [fst snd rbind].
  unfold decode_utf8. rewrite Hutf. cbn [rbind].
  rewrite (decodeJSON_object X _ d Hjson), Hd'.
  unfold lift. cbn [py_getitem].
  rewrite (Hkeep "workspace_id"), (Hkeep "id"), Hw, Hi by discriminate.
  rewrite format_STOP.
  rewrite postRequest_run by reflexivity. cbv zeta.
  cbn [fmap option_fmap option_map].
  match goal with
  | |- context [rbind ?a ?k] => destruct (rbind a k) as [r|e]
  end;
    [cbn [snd]; destruct (decodeJSON_post X r)|];
    cbn [snd with_sent sent]; rewrite <- List.app_assoc; reflexivity.
Qed.

(** ** Lookups: the listing comes first *)

(** X12.  [getWorkspace] and [getClient] request the listing before they
    look at their arguments: whatever the name and id, and whatever the
    outcome, the call makes exactly one request, the GET of the
    listing. *)
Theorem lookup_fetches_listing_first (name : option string)
    (id : option NumStr) (st : State W) :
  sent (snd (getWorkspace X name id st))
  = sent st ++ [request_of st Endpoints.WORKSPACES None None]
  /\ sent (snd (getClient X name id st))
     = sent st ++ [request_of st Endpoints.CLIENTS None None].
Proof.
  split.
  - unfold getWorkspace, getWorkspaces, mbind, M_bind. rewrite request_run.
    match goal with
    | |- context [rbind ?a ?k] => destruct (rbind a k) as [v|e]
    end; [|reflexivity].
    destruct name, id; unfold lift; try reflexivity;
      destruct (py_iter v); reflexivity.
  - unfold getClient, getClients, mbind, M_bind. rewrite request_run.
    match goal with
    | |- context [rbind ?a ?k] => destruct (rbind a k) as [v|e]
    end; [|reflexivity].
    destruct name, id; unfold lift; try reflexivity;
      destruct (py_iter v); reflexivity.
Qed.

(** ** Updating a time entry: other inputs, and the round trip *)

(** X13.  [putTimeEntry] on anything but an object raises and leaves the
    client as it was; in particular nothing is sent. *)
Theorem putTimeEntry_not_an_object (v : pyval) (st : State W) :
  ~ is_object v ->
  exists e, putTimeEntry X v st = (Raise e, st).
Proof.
  intros Hv. unfold putTimeEntry, mbind, M_bind, lift, raise.
  destruct v as [| b | z | q | s | l | d]; cbn [py_contains]; eauto.
  - destruct (String.index 0 "id" s); cbn; eauto.
  - destruct (existsb (fun x => py_eq_str x "id") l); cbn; eauto.
  - contradiction Hv. exact I.
Qed.

Lemma putTimeEntry_sends (d : pydict) (id wid : Z) (st : State W) :
  Dict.get "id" d = Some (PInt id) ->
  Dict.get "workspace_id" d = Some (PInt wid) ->
  sent (snd (putTimeEntry X (PDict d) st)) =
  sent st ++
  [request_of st
     ("https://api.track.toggl.com/api/v9/workspaces/" +:+ pretty wid
        +:+ "/time_entries/" +:+ pretty id)
     (Some (json_encode X (PDict d))) (Some "PUT")].
Proof.
  intros Hi Hw.
  unfold putTimeEntry, mbind, M_bind, mret, M_ret, lift, raise.
  cbn [py_contains py_getitem]. unfold Dict.mem. rewrite Hi, Hw.
  cbn [negb type_is_int py_str]. rewrite format_TIME_ENTRY.
  rewrite postRequest_run by reflexivity. cbv zeta.
  cbn [fmap option_fmap option_map].
  match goal with
  | |- context [rbind ?a ?k] => destruct (rbind a k) as [r|e]
  end; [|reflexivity].
  cbn [snd]. destruct (decodeJSON_post X r); reflexivity.
Qed.

(** X14.  An entry read through [decodeJSON] can be put back: for a
    response that decodes to an object with integer [id] and
    [workspace_id], the normalised object passes the checks of
    [putTimeEntry], and the PUT carries it whole, with a [tag_ids] that
    is not [None]. *)
Theorem putTimeEntry_after_decodeJSON (s : string) (d : pydict) (id wid : Z)
    (st : State W) :
  json_decode X s = Some (PDict d) ->
  Dict.get "id" d = Some (PInt id) ->
  Dict.get "workspace_id" d = Some (PInt wid) ->
  exists d',
    decodeJSON X s = Ok (PDict d')
    /\ Dict.get "tag_ids" d' <> Some PNone
    /\ sent (snd (putTimeEntry X (PDict d') st)) =
       sent st ++
       [request_of st
          ("https://api.track.toggl.com/api/v9/workspaces/" +:+ pretty wid
             +:+ "/time_entries/" +:+ pretty id)
          (Some (json_encode X (PDict d'))) (Some "PUT")].
Proof.
  intros Hjson Hi Hw.
  destruct (decodeJSON_object_keys d) as (d' & Hd' & Hkeep & Htag).
  exists d'. rewrite (decodeJSON_object X s d Hjson), Hd'.
  split; [reflexivity | split; [exact Htag|]].
  apply putTimeEntry_sends; rewrite Hkeep by discriminate; assumption.
Qed.

(** ** Sessions: what no call touches *)

Lemma tidy_le {A} (n m : nat) (c : M W A) :
  (n <= m)%nat -> tidy n c -> tidy m c.
Proof.
  intros Hle Hc st. destruct (Hc st) as (l & ? & ? & ? & ? & ?).
  exists l. repeat split; try assumption. lia.
Qed.

Lemma tidy_quiet {A} (n : nat) (c : M W A) :
  (forall st, sent (snd (c st)) = sent st
              /\ headers (snd (c st)) = headers st
              /\ user_agent (snd (c st)) = user_agent st) ->
  tidy n c.
Proof.
  intros H st. destruct (H st) as (Hs & Hh & Hu).
  exists []. rewrite Hs, app_nil_r. repeat split; auto. cbn. lia.
Qed.

Lemma tidy_lift {A} (n : nat) (r : result A) : tidy n (lift (W:=W) r).
Proof. apply tidy_quiet. intros st. repeat split. Qed.

Lemma tidy_raise {A} (n : nat) (e : exn) : tidy n (raise (W:=W) (A:=A) e).
Proof. apply tidy_quiet. intros st. repeat split. Qed.

Lemma tidy_ret {A} (n : nat) (a : A) : tidy n (mret (M:=M W) a).
Proof. apply tidy_quiet. intros st. repeat split. Qed.

Lemma tidy_get_state (n : nat) : tidy n (get_state (W:=W)).
Proof. apply tidy_quiet. intros st. repeat split. Qed.

Lemma tidy_print (n : nat) (line : string) : tidy n (print (W:=W) line).
Proof. apply tidy_quiet. intros st. repeat split. Qed.

Lemma tidy_on_world {A} (n : nat) (f : W -> A * W) : tidy n (on_world f).
Proof.
  apply tidy_quiet. intros st. unfold on_world.
  destruct (f (world st)). repeat split.
Qed.

Lemma tidy_bind {A B} (n m : nat) (c : M W A) (k : A -> M W B) :
  tidy n c -> (forall a, tidy m (k a)) -> tidy (n + m) (mbind k c).
Proof.
  intros Hc Hk st. unfold mbind, M_bind.
  destruct (Hc st) as (l1 & Hs1 & Hn1 & Hf1 & Hh1 & Hu1).
  destruct (c st) as [[a|e] st1]; cbn [snd] in *.
  - destruct (Hk a st1) as (l2 & Hs2 & Hn2 & Hf2 & Hh2 & Hu2).
    exists (l1 ++ l2). rewrite Hs2, Hs1, <- List.app_assoc.
    repeat split.
    + rewrite length_app. lia.
    + apply Forall_app. split; [exact Hf1|]. now rewrite <- Hh1.
    + congruence.
    + congruence.
  - exists l1. repeat split; try assumption. lia.
Qed.

Lemma tidy_one {A} (n : nat) (c : M W A) (r : State W -> Request)
    (w : State W -> W) :
  (forall st, snd (c st) = with_sent st (w st) (r st)) ->
  (forall st, req_headers (r st) = headers st) ->
  tidy (S n) c.
Proof.
  intros Hc Hr st. exists [r st]. rewrite Hc. repeat split.
  - cbn. lia.
  - repeat constructor. apply Hr.
Qed.

Lemma tidy_requestRaw (n : nat) (endpoint : string) (parameters : option pydict) :
  tidy (S n) (requestRaw X endpoint parameters).
Proof.
  destruct parameters as [params|].
  - eapply tidy_one with
      (r := fun st =>
              request_of st
                (endpoint +:+ "?" +:+
                   urlencode X
                     (if Dict.mem "user_agent" params then params
                      else Dict.set "user_agent" (PStr (user_agent st)) params))
                None None).
    + intros st. rewrite requestRaw_params_run. reflexivity.
    + reflexivity.
  - eapply tidy_one with (r := fun st => request_of st endpoint None None).
    + intros st. unfold requestRaw, mbind, M_bind, get_state, mret, M_ret.
      rewrite do_urlopen_run. fold (request_of st endpoint None None).
      destruct (fst (urlopen X (request_of st endpoint None None) (cafile X)
                       (world st))); reflexivity.
    + reflexivity.
Qed.

Lemma tidy_request (n : nat) (endpoint : string) (parameters : option pydict) :
  tidy (S n) (request X endpoint parameters).
Proof.
  unfold request.
  apply (tidy_bind 1 n); [apply tidy_requestRaw | intros raw].
  apply (tidy_bind 0 n); [apply tidy_lift | intros text]. apply tidy_lift.
Qed.

Lemma tidy_postRequest (n : nat) (endpoint : string) (parameters : option pyval)
    (method : string) :
  tidy (S n) (postRequest X endpoint parameters method).
Proof.
  destruct (String.eqb method "DELETE") eqn:Hm.
  - apply String.eqb_eq in Hm. subst method.
    eapply tidy_one with
      (r := fun st => request_of st endpoint None (Some "DELETE")).
    + intros st. rewrite postRequest_delete_run. reflexivity.
    + reflexivity.
  - eapply tidy_one with
      (r := fun st =>
              request_of st endpoint (json_encode X <$> parameters) (Some method)).
    + intros st. rewrite postRequest_run by exact Hm. reflexivity.
    + reflexivity.
Qed.

Ltac tidy_base :=
  first [ apply tidy_lift | apply tidy_raise | apply tidy_ret
        | apply tidy_get_state | apply tidy_print | apply tidy_on_world
        | apply tidy_request | apply tidy_postRequest | apply tidy_requestRaw ].

Ltac tidy_bind_step :=
  lazymatch goal with
  | |- tidy ?n (mbind _ _) =>
      first [ apply (tidy_bind 0 n); [solve [tidy_base] | intros ?]
            | lazymatch n with
              | S ?n' => apply (tidy_bind 1 n'); [solve [tidy_base] | intros ?]
              end ]
  end.

Ltac tidy_run :=
  repeat (cbv beta zeta;
          lazymatch goal with
          | |- tidy _ (mbind _ _) => tidy_bind_step
          | |- tidy _ (if ?b then _ else _) => destruct b
          | |- tidy _ (match ?x with _ => _ end) => destruct x
          | |- tidy _ _ => tidy_base
          end).

Lemma tidy_or_now (n : nat) (field : datetime -> Z) (v : option Z) :
  tidy n (or_now X field v).
Proof. unfold or_now. tidy_run. Qed.

Lemma tidy_currentRunningTimeEntry (n : nat) (state : pyval) :
  tidy (S n) (currentRunningTimeEntry X state).
Proof. unfold currentRunningTimeEntry. tidy_run. Qed.

(** What every call does to the log, the headers and the user agent. *)
Lemma step_frame (c : call) (st : State W) :
  (exists l,
     sent (step X c st) = sent st ++ l
     /\ (length l <= max_requests c)%nat
     /\ Forall (fun r => req_headers r = headers st) l)
  /\ (forall k, k <> "Authorization" ->
               headers (step X c st) !! k = headers st !! k)
  /\ match c with
     | SetAPIKey _ | SetAuthCredentials _ _ =>
         user_agent (step X c st) = user_agent st
     | SetUserAgent _ => headers (step X c st) = headers st
     | _ => headers (step X c st) = headers st
            /\ user_agent (step X c st) = user_agent st
     end.
Proof.
  assert (Hsetter : forall st' : State W,
            sent st' = sent st ->
            exists l, sent st' = sent st ++ l /\ (length l <= 0)%nat
                      /\ Forall (fun r => req_headers r = headers st) l).
  { intros st' Hs. exists []. rewrite Hs, app_nil_r. repeat split; auto. }
  assert (Htidy : forall A (m : M W A),
            tidy (max_requests c) m ->
            (exists l,
               sent (snd (m st)) = sent st ++ l
               /\ (length l <= max_requests c)%nat
               /\ Forall (fun r => req_headers r = headers st) l)
            /\ (forall k, k <> "Authorization" ->
                         headers (snd (m st)) !! k = headers st !! k)
            /\ headers (snd (m st)) = headers st
            /\ user_agent (snd (m st)) = user_agent st).
  { intros A m Hm. destruct (Hm st) as (l & Hs & Hn & Hf & Hh & Hu).
    repeat split; eauto. intros k _. now rewrite Hh. }
  destruct c; cbn [step];
    try (apply Htidy; cbn [max_requests]).
  - rewrite setAPIKey_run. cbn [snd with_headers sent headers user_agent].
    repeat split; auto. intros k Hk. now apply lookup_insert_ne.
  - rewrite setAuthCredentials_run. cbn [snd with_headers sent headers user_agent].
    repeat split; auto. intros k Hk. now apply lookup_insert_ne.
  - cbn. repeat split; auto.
  - apply tidy_requestRaw.
  - apply tidy_request.
  - apply tidy_postRequest.
  - unfold startTimeEntry. tidy_run.
  - apply tidy_currentRunningTimeEntry.
  - unfold stopTimeEntry.
    apply (tidy_bind 1 1); [apply tidy_currentRunningTimeEntry | intros v].
    tidy_run.
  - unfold createTimeEntry.
    apply (tidy_bind 0 1); [tidy_run | intros pid].
    repeat (apply (tidy_bind 0 1); [apply tidy_or_now | intros ?]).
    tidy_run.
  - unfold putTimeEntry. tidy_run.
  - unfold deleteTimeEntry. tidy_run.
  - apply tidy_request.
  - unfold getWorkspace, getWorkspaces. tidy_run.
  - unfold getWorkspaceProjects. tidy_run.
  - apply tidy_request.
  - unfold getClient, getClients. tidy_run.
  - apply tidy_request.
  - unfold getProject. tidy_run.
  - unfold getProjectTasks. tidy_run.
  - unfold createTask. tidy_run.
  - unfold createClient. tidy_run.
  - unfold updateClient. tidy_run.
  - unfold deleteClient. tidy_run.
Qed.

(** X15.  A call appends to the request log and never rewrites it: the
    two credential setters and [setUserAgent] send nothing,
    [stopTimeEntry] sends at most two requests and every other method at
    most one. *)
Theorem call_request_bound (c : call) (st : State W) :
  exists l,
    sent (step X c st) = sent st ++ l /\ (length l <= max_requests c)%nat.
Proof.
  destruct (step_frame c st) as ((l & Hs & Hn & _) & _). eauto.
Qed.


Lemma session_snoc (cs : list call) (c : call) (st : State W) :
  session X (cs ++ [c]) st = step X c (session X cs st).
Proof. unfold session. now rewrite fold_left_app. Qed.


Lemma session_carries_static (cs : list call) (st : State W) :
  (forall r, req_headers r = headers st -> carries_static r) ->
  Forall carries_static (sent st) ->
  (forall r, req_headers r = headers (session X cs st) -> carries_static r)
  /\ Forall carries_static (sent (session X cs st)).
Proof.
  intros Hh Hs. induction cs as [|c cs [IHh IHs]] using rev_ind; [auto|].
  rewrite session_snoc.
  destruct (step_frame c (session X cs st)) as ((l & Hl & _ & Hf) & Hk & _).
  split.
  - intros r Hr. unfold carries_static. rewrite Hr, !Hk by discriminate.
    apply (IHh {| req_url := ""; req_data := None;
                  req_headers := headers (session X cs st);
                  req_method := None |}).
    reflexivity.
  - rewrite Hl. apply Forall_app. split; [exact IHs|].
    eapply Forall_impl; [exact Hf | exact IHh].
Qed.

(** X18.  On a client that starts from the class's header template,
    every request of every sequence of calls carries
    [Content-Type: application/json], [Accept: */*] and
    [User-Agent: python/urllib]. *)
Theorem session_requests_carry_static (cs : list call) (w : W) :
  Forall carries_static (sent (session X cs (initial_state w))).
Proof.
  apply session_carries_static; [|constructor].
  intros r Hr. unfold carries_static. rewrite Hr. repeat split.
Qed.

(** ** Lookups: the id as given *)

Lemma scan_bad_id (id : NumStr) (e : exn) (xs : list pyval) :
  py_int X id = Raise e ->
  Forall is_entity xs ->
  scan "id" (by_id X id) xs = match xs with [] => Ok PNone | _ => Raise e end.
Proof.
  intros He Hall. destruct Hall as [|x xs Hx _]; [reflexivity|].
  destruct x as [| | | | | |d]; try contradiction.
  destruct Hx as [[i Hi] _].
  cbn [scan py_getitem]. rewrite Hi. cbn [rbind]. unfold by_id at 1.
  now rewrite He.
Qed.

(** X19.  The id of a lookup is converted with [int()] inside the loop,
    once per element met.  With an id that cannot be converted,
    [getWorkspace] and [getClient] therefore return [None] on an empty
    listing and raise the conversion's exception on a listing of
    entities that is not empty. *)
Theorem lookup_unconvertible_id (k : listing) (name : option string)
    (id : NumStr) (e : exn) (xs : list pyval) (st st' : State W) :
  py_int X id = Raise e ->
  fetch_listing X k st = (Ok (PList xs), st') ->
  Forall is_entity xs ->
  lookup X k name (Some id) st
  = (match xs with [] => Ok PNone | _ => Raise e end, st').
Proof.
  intros He Hfetch Hxs.
  destruct k; cbn [fetch_listing lookup] in *;
    unfold getWorkspace, getClient, mbind, M_bind; rewrite Hfetch;
    destruct name; cbn [py_iter lift]; now rewrite (scan_bad_id id e xs He Hxs).
Qed.

(** X20.  An id given as text is the id [int()] reads from it, and with
    an id the name plays no part: the lookup by the text, under any
    name, is the lookup by the number, under any other. *)
Theorem lookup_id_as_text (s : string) (n : Z) (name name' : option string)
    (st : State W) :
  int_of_str X s = Some n ->
  getWorkspace X name (Some (NStr s)) st = getWorkspace X name' (Some (NInt n)) st
  /\ getClient X name (Some (NStr s)) st = getClient X name' (Some (NInt n)) st.
Proof.
  intros H. unfold getWorkspace, getClient, by_id, py_int. rewrite H.
  destruct name, name'; split; reflexivity.
Qed.

(** ** Tasks and clients *)

(** X21.  [createTask] converts both ids with [int()] before anything is
    sent.  When a conversion fails the call raises its exception and the
    client is as before; otherwise one POST goes to the project's task
    URL, the URL [getProjectTasks] reads, built from the ids as given,
    with the converted ids in the body. *)
Theorem createTask_run (name : string) (wid pid : NumStr)
    (active estimated_seconds : bool) (st : State W) :
  match py_int X wid, py_int X pid with
  | Ok w, Ok p =>
      sent (snd (createTask X name wid pid active estimated_seconds st)) =
      sent st ++
      [request_of st
         ("https://api.track.toggl.com/api/v9/workspaces/" +:+ numstr_str wid
            +:+ "/projects/" +:+ numstr_str pid +:+ "/tasks")
         (Some (json_encode X (PDict [
            ("name", PStr name);
            ("workspace_id", PInt w);
            ("project_id", PInt p);
            ("active", PBool active);
            ("estimated_seconds", PBool estimated_seconds)])))
         (Some "POST")]
      /\ sent (snd (getProjectTasks X wid pid st)) =
         sent st ++
         [request_of st
            ("https://api.track.toggl.com/api/v9/workspaces/" +:+ numstr_str wid
               +:+ "/projects/" +:+ numstr_str pid +:+ "/tasks")
            None None]
  | Raise e, _ | Ok _, Raise e =>
      createTask X name wid pid active estimated_seconds st = (Raise e, st)
  end.
Proof.
  unfold createTask, getProjectTasks, mbind, M_bind, lift.
  destruct (py_int X wid) as [w|e]; [|reflexivity].
  destruct (py_int X pid) as [p|e]; [|reflexivity].
  rewrite format_TASKS, format_PROJECT_TASKS. split.
  - rewrite postRequest_run by reflexivity. cbv zeta.
    cbn [fmap option_fmap option_map].
    match goal with
    | |- context [rbind ?a ?k] => destruct (rbind a k) as [r|e]
    end; [|reflexivity].
    cbn [snd]. destruct (decodeJSON_post X r); reflexivity.
  - rewrite request_run. reflexivity.
Qed.

(** X22.  [createClient] always sends one POST to the workspace's client
    URL, whose body is the encoding of an object with the keys [name],
    [wid] and [notes], in this order, [notes] being [None] when
    omitted. *)
Theorem createClient_payload (name : string) (wid : Z) (notes : option string)
    (st : State W) :
  sent (snd (createClient X name wid notes st)) =
  sent st ++
  [request_of st
     ("https://api.track.toggl.com/api/v9/workspaces/" +:+ pretty wid +:+ "/clients")
     (Some (json_encode X
              (PDict [("name", PStr name); ("wid", PInt wid);
                      ("notes", opt_str notes)])))
     (Some "POST")].
Proof.
  unfold createClient, mbind, M_bind, lift.
  rewrite format_WORKSPACE_CLIENTS.
  rewrite postRequest_run by reflexivity. cbv zeta.
  cbn [fmap option_fmap option_map].
  match goal with
  | |- context [rbind ?a ?k] => destruct (rbind a k) as [r|e]
  end; [|reflexivity].
  cbn [snd]. destruct (decodeJSON_post X r); reflexivity.
Qed.

(** ** The user agent and the credentials *)


(** X24.  Whatever the credentials, the [Authorization] value the two
    setters leave is ["Basic "] followed by ASCII characters none of
    which is whitespace, so no line break of a key or password reaches
    the header; the number of these characters is fixed by the number
    of bytes the credentials encode to ([String.length] counts the bytes
    of the UTF-8 encoding). *)
Theorem authorization_value_shape (api_key email password : string)
    (st : State W) :
  (exists v,
     headers (snd (setAPIKey api_key st)) !! "Authorization" = Some ("Basic " +:+ v)
     /\ Forall plain (list_ascii_of_string v)
     /\ String.length v = (4 * ((String.length api_key + 12) / 3))%nat)
  /\ (exists v,
       headers (snd (setAuthCredentials email password st)) !! "Authorization"
       = Some ("Basic " +:+ v)
       /\ Forall plain (list_ascii_of_string v)
       /\ String.length v
          = (4 * ((String.length email + String.length password + 3) / 3))%nat).
Proof.
  rewrite setAPIKey_run, setAuthCredentials_run.
  cbn [snd with_headers headers]. split; eexists; (split; [apply lookup_insert_eq|]).
  - split; [apply b64encode_plain|].
    rewrite b64encode_length, length_append. cbn [String.length].
    do 2 f_equal. lia.
  - split; [apply b64encode_plain|].
    rewrite b64encode_length, !length_append. cbn [String.length].
    do 2 f_equal. lia.
Qed.

(** ** Reading a response *)

(** X25.  [request] on a URL of the API's host sends its GET first and
    reads the answer after: an exception of the transport, a body that
    is not UTF-8 and a body that is not JSON each end the call with
    their own exception, in this order of precedence, the request being
    in the log in every case. *)
Theorem request_failures (endpoint : string) (st : State W)
    (r : result Response) (w : W) :
  toggl_url endpoint ->
  urlopen X (request_of st endpoint None None) (cafile X) (world st) = (r, w) ->
  snd (request X endpoint None st)
  = with_sent st w (request_of st endpoint None None)
  /\ match r with
     | Raise e => fst (request X endpoint None st) = Raise e
     | Ok resp =>
         if utf8_valid X (resp_body resp) then
           match json_decode X (resp_body resp) with
           | None => fst (request X endpoint None st) = Raise JSONDecodeError
           | Some _ =>
               fst (request X endpoint None st) = decodeJSON X (resp_body resp)
           end
         else fst (request X endpoint None st) = Raise UnicodeDecodeError
     end.
Proof.
  intros _ H. rewrite request_run, H. cbn [fst snd]. split; [reflexivity|].
  destruct r as [resp|e]; [|reflexivity].
  cbn [rbind]. unfold decode_utf8.
  destruct (utf8_valid X (resp_body resp)); [|reflexivity].
  cbn [rbind]. unfold decodeJSON.
  destruct (json_decode X (resp_body resp)); reflexivity.
Qed.

End Coverage.

(** ** The further properties on concrete calls *)

Lemma decodeJSON_object_normalised_witness :
  exists d',
    decodeJSON untagged "entry" = Ok (PDict d')
    /\ Dict.keys d' = ["id"; "workspace_id"; "tag_ids"]
    /\ Dict.get "tag_ids" d' <> Some PNone
    /\ (forall k, k <> "tag_ids" ->
         Dict.get k d'
         = Dict.get k [("id", PInt 7); ("workspace_id", PInt 5); ("tag_ids", PNone)])
    /\ (Dict.get "tag_ids"
          [("id", PInt 7); ("workspace_id", PInt 5); ("tag_ids", PNone)]
        <> Some PNone ->
        d' = [("id", PInt 7); ("workspace_id", PInt 5); ("tag_ids", PNone)]).
Proof.
  exact (decodeJSON_object_normalised untagged "entry"
           [("id", PInt 7); ("workspace_id", PInt 5); ("tag_ids", PNone)] eq_refl).
Defined.

Lemma decodeJSON_listing_unchanged_witness :
  decodeJSON untagged "[entry]"
  = Ok (PList [PDict [("id", PInt 7); ("tag_ids", PNone)]]).
Proof.
  apply (decodeJSON_listing_unchanged untagged "[entry]"
           [PDict [("id", PInt 7); ("tag_ids", PNone)]] eq_refl).
  repeat constructor.
Defined.

Lemma createTimeEntry_without_project_witness :
  createTimeEntry idle 2 10 None None (Some "Website") None (Some "Acme")
    None None None None false (-2) st0
  = (Raise (AttributeError "'Toggl' object has no attribute 'getClientProject'"), st0).
Proof.
  exact (createTimeEntry_without_project idle 2 10 None None (Some "Website") None
           (Some "Acme") None None None None false (-2) st0 eq_refl).
Defined.

Lemma createTimeEntry_explicit_ignores_clock_witness :
  createTimeEntry idle 2 10 None (Some 20) None None None
    (Some 2024) (Some 1) (Some 15) (Some 9) false (-2) st0
  = createTimeEntry
      (with_clock idle
         (fun w => ({| dt_year := 1999; dt_month := 12; dt_day := 31; dt_hour := 23;
                       dt_minute := 59; dt_second := 59; dt_microsecond := 0 |}, w)))
      2 10 None (Some 20) None None None
      (Some 2024) (Some 1) (Some 15) (Some 9) false (-2) st0.
Proof.
  apply (createTimeEntry_explicit_ignores_clock idle); reflexivity.
Defined.

Lemma stopTimeEntry_unusable_state_witness :
  exists e,
    stopTimeEntry idle (PDict [("id", PInt 7)]) st0 = (Raise e, st0)
    /\ e = KeyError "workspace_id".
Proof.
  apply (stopTimeEntry_unusable_state idle (PDict [("id", PInt 7)]) st0).
  - discriminate.
  - intros d w i [= <-] Hw _. vm_compute in Hw. discriminate.
Defined.

Lemma stopTimeEntry_fetch_then_patch_witness :
  sent (snd (stopTimeEntry untagged PNone st0))
  = [request_of st0 Endpoints.CURRENT_RUNNING_TIME None None;
     request_of st0
       "https://api.track.toggl.com/api/v9/workspaces/5/time_entries/7/stop"
       None (Some "PATCH")].
Proof.
  apply (stopTimeEntry_fetch_then_patch untagged st0
           {| resp_code := 200; resp_body := "entry" |} tt
           [("id", PInt 7); ("workspace_id", PInt 5); ("tag_ids", PNone)]
           (PInt 5) (PInt 7)); reflexivity.
Defined.

Lemma putTimeEntry_not_an_object_witness :
  exists e, putTimeEntry idle PNone st0 = (Raise e, st0).
Proof.
  apply (putTimeEntry_not_an_object idle PNone st0). intros [].
Defined.

Lemma putTimeEntry_after_decodeJSON_witness :
  exists d',
    decodeJSON untagged "entry" = Ok (PDict d')
    /\ Dict.get "tag_ids" d' <> Some PNone
    /\ sent (snd (putTimeEntry untagged (PDict d') st0)) =
       [request_of st0
          "https://api.track.toggl.com/api/v9/workspaces/5/time_entries/7"
          (Some (json_encode untagged (PDict d'))) (Some "PUT")].
Proof.
  exact (putTimeEntry_after_decodeJSON untagged "entry"
           [("id", PInt 7); ("workspace_id", PInt 5); ("tag_ids", PNone)] 7 5 st0
           eq_refl eq_refl eq_refl).
Defined.


Lemma lookup_unconvertible_id_witness :
  getWorkspace idle None (Some (NStr "abc")) st0
  = (Raise (ValueError "invalid literal for int() with base 10: 'abc'"),
     snd (getWorkspaces idle st0))
  /\ getClient deserted None (Some (NStr "abc")) st0
     = (Ok PNone, snd (getClients deserted st0)).
Proof.
  split.
  - apply (lookup_unconvertible_id idle Workspaces None (NStr "abc")
             (ValueError "invalid literal for int() with base 10: 'abc'")
             [home; work] st0 (snd (getWorkspaces idle st0)));
      [reflexivity | reflexivity | repeat constructor; cbn; eauto].
  - apply (lookup_unconvertible_id deserted Clients None (NStr "abc")
             (ValueError "invalid literal for int() with base 10: 'abc'")
             [] st0 (snd (getClients deserted st0)));
      [reflexivity | reflexivity | constructor].
Defined.

Lemma lookup_id_as_text_witness :
  getWorkspace idle_reading_two (Some "Home") (Some (NStr "2")) st0
  = getWorkspace idle_reading_two None (Some (NInt 2)) st0
  /\ getClient idle_reading_two (Some "Home") (Some (NStr "2")) st0
     = getClient idle_reading_two None (Some (NInt 2)) st0.
Proof.
  apply (lookup_id_as_text idle_reading_two "2" 2). reflexivity.
Defined.


Lemma postRequest_delete_ignores_parameters_witness :
  postRequest idle "https://api.track.toggl.com/api/v9/workspaces/2/clients/31"
    (Some (PDict [("name", PStr "Acme")])) "DELETE" st0
  = postRequest idle "https://api.track.toggl.com/api/v9/workspaces/2/clients/31"
      None "DELETE" st0
  /\ sent (snd (postRequest idle
                  "https://api.track.toggl.com/api/v9/workspaces/2/clients/31"
                  (Some (PDict [("name", PStr "Acme")])) "DELETE" st0))
     = [request_of st0 "https://api.track.toggl.com/api/v9/workspaces/2/clients/31"
          None (Some "DELETE")]
  /\ fst (postRequest idle
            "https://api.track.toggl.com/api/v9/workspaces/2/clients/31"
            (Some (PDict [("name", PStr "Acme")])) "DELETE" st0)
     = Raise (HTTPError 404 "").
Proof.
  exact (postRequest_delete_ignores_parameters idle
           "https://api.track.toggl.com/api/v9/workspaces/2/clients/31"
           (Some (PDict [("name", PStr "Acme")])) st0 eq_refl).
Defined.


Lemma request_failures_witness :
  snd (request idle Endpoints.PROJECTS None st0)
  = with_sent st0 tt (request_of st0 Endpoints.PROJECTS None None)
  /\ fst (request idle Endpoints.PROJECTS None st0) = Raise (HTTPError 404 "").
Proof.
  apply (request_failures idle Endpoints.PROJECTS st0 (Raise (HTTPError 404 "")) tt);
    reflexivity.
Defined.
